(** * backend/app.py: moderation and sentiment endpoints, WebSocket fan-out

    A shallow embedding of [backend/app.py].  Python values are an inductive
    type, dicts are finite maps, the two classifier pipelines, [json.loads],
    the wall clock and the transport are parameters, and the effects of the
    handlers (pipeline calls, the connection list, frames put on the wire,
    raised exceptions) are threaded through a state-and-exception monad.
    A WebSocket handler is followed on its own; the fan-out is also modelled
    among the other handlers, which run while one of its sends is
    suspended. *)

From Stdlib Require Import ZArith QArith Qabs Qround Lia List Ascii String.
From Stdlib Require Import DecimalString Lqa.
From stdpp Require Import gmap list.

Set Warnings "-register-all".

(** ** Python values *)

(** A [str] is a sequence of Unicode code points: [len] counts them and a
    slice cuts between them. *)
Abbreviation str := (list N).

(** An ASCII literal of the source as a [str]. *)
Definition py (s : string) : str :=
  List.map N_of_ascii (list_ascii_of_string s).

(** The values a JSON body or frame decodes to, and the values the handlers
    return.  A finite [float] is kept as the rational it denotes. *)
Inductive value :=
  | VNone
  | VBool (b : bool)
  | VInt (z : Z)
  | VFloat (q : Q)
  | VStr (s : str)
  | VList (l : list value)
  | VDict (d : gmap str value).

Abbreviation dict := (gmap str value).

Inductive exn :=
  | WebSocketDisconnect
  | JSONDecodeError
  | ValueError
  | TypeError
  | AttributeError
  | IndexError
  | RuntimeError.

(** [not v] is [negb (truthy v)]. *)
Definition truthy (v : value) : bool :=
  match v with
  | VNone => false
  | VBool b => b
  | VInt z => negb (Z.eqb z 0)
  | VFloat q => negb (Qeq_bool q 0)
  | VStr s => negb (Nat.eqb (length s) 0)
  | VList l => negb (Nat.eqb (length l) 0)
  | VDict d => negb (bool_decide (d = ∅))
  end.

(** [d.get(k, dflt)] *)
Definition dict_get (d : dict) (k : str) (dflt : value) : value :=
  default dflt (d !! k).

(** [v[:n]]: defined on sequences; anything else is not subscriptable by a
    slice (for a dict the class of the exception depends on the interpreter
    version and is rendered as [TypeError] too). *)
Definition slice_to (n : nat) (v : value) : exn + value :=
  match v with
  | VStr s => inr (VStr (take n s))
  | VList l => inr (VList (take n l))
  | _ => inl TypeError
  end.

(** [len(v)] *)
Definition len (v : value) : exn + Z :=
  match v with
  | VStr s => inr (Z.of_nat (length s))
  | VList l => inr (Z.of_nat (length l))
  | VDict d => inr (Z.of_nat (size d))
  | _ => inl TypeError
  end.

(** ** Floats *)

(** A finite binary64: [m * 2^e] with a 53-bit significand and the exponent
    range of the format, written over the common denominator [2^1074]. *)
Definition binary64 (q : Q) : Prop :=
  ∃ m e : Z, (Z.abs m < 2 ^ 53)%Z ∧ (-1074 ≤ e ≤ 971)%Z ∧
             (q == m * 2 ^ (e + 1074) # 2 ^ 1074)%Q.

(** [a > b] on finite floats compares the denoted numbers. *)
Definition float_gt (a b : Q) : bool := negb (Qle_bool a b).

(** Nearest integer, ties to the even one. *)
Definition round_half_even (q : Q) : Z :=
  let f := Qfloor q in
  match (q - inject_Z f ?= 1 # 2)%Q with
  | Lt => f
  | Gt => (f + 1)%Z
  | Eq => if Z.even f then f else (f + 1)%Z
  end.

(** The exponent [e] of the binary64 grid around a positive [q]:
    [2^52 <= q / 2^e < 2^53], bounded below by the subnormal exponent. *)
Definition grid_exponent (q : Q) : Z :=
  let k := (Z.log2 (Qnum q) - Z.log2 (Zpos (Qden q)))%Z in
  let k := if Qle_bool (2 ^ k)%Q q then k else (k - 1)%Z in
  Z.max (k - 52) (-1074).

(** The float a number within the finite range denotes: round to nearest,
    ties to even. *)
Definition nearest_binary64 (q : Q) : Q :=
  match Qnum q with
  | Z0 => 0%Q
  | _ =>
      let a := Qabs q in
      let e := grid_exponent a in
      let m := round_half_even (a / 2 ^ e)%Q in
      let r := (inject_Z m * 2 ^ e)%Q in
      Qred (if Qle_bool 0 q then r else - r)%Q
  end.

(** The literal [0.7] of the source: the float the decimal 7/10 denotes,
    [0x1.6666666666666p-1]. *)
Definition lit_0_7 : Q := 3152519739159347 # 4503599627370496.

(** [round(x, ndigits)] on a finite float, for [ndigits >= 0]: the exact
    value is rounded to [ndigits] decimals, ties to even, and the decimal is
    read back as a float. *)
Definition py_round (x : Q) (ndigits : nat) : Q :=
  let scale := inject_Z (10 ^ Z.of_nat ndigits) in
  nearest_binary64 (inject_Z (round_half_even (x * scale)%Q) / scale)%Q.

(** ** Effects *)

(** A computation over a state [S] that returns or raises; what it did to
    the state before raising stays done. *)
Definition M (S A : Type) : Type := S → (exn + A) * S.

Definition ret {S A} (a : A) : M S A := λ s, (inr a, s).
Definition raise {S A} (e : exn) : M S A := λ s, (inl e, s).
Definition lift {S A} (r : exn + A) : M S A := λ s, (r, s).
Definition bind {S A B} (m : M S A) (k : A → M S B) : M S B :=
  λ s, match m s with
       | (inr a, s') => k a s'
       | (inl e, s') => (inl e, s')
       end.
Definition gets {S A} (f : S → A) : M S A := λ s, (inr (f s), s).
Definition modify {S} (f : S → S) : M S unit := λ s, (inr tt, f s).

Notation "x <- m ;; k" := (bind m (λ x, k))
  (at level 100, m at next level, right associativity).
Notation "m ;;; k" := (bind m (λ _, k))
  (at level 100, right associativity).

(** [for x in xs: body(x)], for a body that leaves [xs] alone. *)
Fixpoint for_each {S A} (xs : list A) (body : A → M S unit) : M S unit :=
  match xs with
  | [] => ret tt
  | x :: xs' => body x ;;; for_each xs' body
  end.

(** ** The analysis endpoints *)

(** One entry of the list a [transformers] pipeline returns. *)
Record ScoreResult := { label : str; score : Q }.

Inductive pipeline := toxicity_model | sentiment_model.

(** The pipeline calls made so far, oldest first. *)
Abbreviation calls := (list (pipeline * value)).

(** [xs[0]] *)
Definition first_item {A} (xs : list A) : exn + A :=
  match xs with
  | x :: _ => inr x
  | [] => inl IndexError
  end.

Definition sentiment_emoji : dict :=
  <[py "POSITIVE" := VStr [128522%N]]>
    (<[py "NEGATIVE" := VStr [128544%N]]>
       (<[py "NEUTRAL" := VStr [128528%N]]> ∅)).

Definition no_text_provided : value :=
  VDict {[ py "error" := VStr (py "No text provided") ]}.

Section Endpoints.
(** What a loaded pipeline answers on an input: a list of results, or an
    exception of its own. *)
Variable run : pipeline → value → exn + list ScoreResult.

Definition call (p : pipeline) (x : value) : M calls (list ScoreResult) :=
  λ log, (run p x, log ++ [(p, x)]).

Definition moderate_content (data : dict) : M calls value :=
  let text := dict_get data (py "text") (VStr []) in
  if negb (truthy text) then ret no_text_provided
  else
    prefix <- lift (slice_to 512 text) ;;
    results <- call toxicity_model prefix ;;
    result <- lift (first_item results) ;;
    let is_toxic := float_gt (score result) lit_0_7 in
    n <- lift (len text) ;;
    ret (VDict (<[py "is_toxic" := VBool is_toxic]>
               (<[py "confidence" := VFloat (py_round (score result) 3)]>
               (<[py "label" := VStr (label result)]>
               (<[py "text_length" := VInt n]> ∅))))).

Definition analyze_sentiment (data : dict) : M calls value :=
  let text := dict_get data (py "text") (VStr []) in
  if negb (truthy text) then ret no_text_provided
  else
    prefix <- lift (slice_to 512 text) ;;
    results <- call sentiment_model prefix ;;
    result <- lift (first_item results) ;;
    ret (VDict (<[py "sentiment" := VStr (label result)]>
               (<[py "confidence" := VFloat (py_round (score result) 3)]>
               (<[py "emoji" :=
                    dict_get sentiment_emoji (label result) (VStr [128528%N])]>
                ∅)))).
End Endpoints.

(** [str(n)], as an f-string renders an [int]. *)
Definition format_int (n : Z) : str :=
  py (NilZero.string_of_int (Z.to_int n)).

Definition no_posts_provided : value :=
  VDict {[ py "error" := VStr (py "No posts provided") ]}.

(** [/api/summarize]: no pipeline is involved; [len(posts)] is evaluated
    for the f-string and again for [post_count]. *)
Definition summarize_thread (data : dict) : exn + value :=
  let posts := dict_get data (py "posts") (VList []) in
  if negb (truthy posts) then inr no_posts_provided
  else
    match len posts with
    | inl e => inl e
    | inr n =>
        let summary :=
          py "Thread with " ++ format_int n ++
          py " posts discussing various topics." in
        match len posts with
        | inl e => inl e
        | inr post_count =>
            inr (VDict (<[py "summary" := VStr summary]>
                       (<[py "post_count" := VInt post_count]> ∅)))
        end
    end.

(** ** The WebSocket channel *)

(** A [WebSocket] object, by identity. *)
Abbreviation conn := nat.

(** The manager's list, the frames put on the wire (oldest first) and the
    number of clock readings taken. *)
Record world := World {
  active_connections : list conn;
  delivered : list (conn * value);
  clock_reads : nat
}.

(** [l.remove(x)]: drops the first element equal to [x]; [None] stands for
    the [ValueError] raised when there is none. *)
Fixpoint list_remove (x : conn) (l : list conn) : option (list conn) :=
  match l with
  | [] => None
  | y :: l' =>
      if decide (y = x) then Some l'
      else cons y <$> list_remove x l'
  end.

(** What the next item awaited by [receive_text] turns out to be. *)
Inductive recv :=
  | Frame (raw : str)
  | Raised (e : exn).

(** How far a handler got: suspended in [receive_text] with nothing to read
    yet, or returned. *)
Inductive progress := Awaiting | Returned.

(** [message.get(k, dflt)] on whatever [json.loads] produced. *)
Definition value_get (message : value) (k : str) (dflt : value) : exn + value :=
  match message with
  | VDict d => inr (dict_get d k dflt)
  | _ => inl AttributeError
  end.

Section Channel.
(** The handshake and the transport: [Some e] when [accept], respectively
    [send_json], raises [e] on that connection. *)
Variable accept_error : conn → option exn.
Variable send_error : conn → option exn.
(** [json.loads] *)
Variable json_loads : str → exn + value.
(** [datetime.now().isoformat()] at the n-th reading of the clock. *)
Variable now_isoformat : nat → str.

Definition accept (ws : conn) : M world unit :=
  match accept_error ws with
  | Some e => raise e
  | None => ret tt
  end.

Definition send_json (ws : conn) (message : value) : M world unit :=
  match send_error ws with
  | Some e => raise e
  | None =>
      modify (λ w, World (active_connections w)
                         (delivered w ++ [(ws, message)])
                         (clock_reads w))
  end.

Definition now : M world value :=
  λ w, (inr (VStr (now_isoformat (clock_reads w))),
        World (active_connections w) (delivered w) (S (clock_reads w))).

Definition connect (ws : conn) : M world unit :=
  accept ws ;;;
  modify (λ w, World (active_connections w ++ [ws])
                     (delivered w) (clock_reads w)).

Definition disconnect (ws : conn) : M world unit :=
  λ w, match list_remove ws (active_connections w) with
       | Some l => (inr tt, World l (delivered w) (clock_reads w))
       | None => (inl ValueError, w)
       end.

(** [broadcast] among the other handlers.  The [for] statement walks the
    live list by position, and every [await connection.send_json(message)]
    is a suspension: the other handlers run, then the send completes or
    raises.  [others] holds what the other handlers do to the world during
    each successive suspension; once it is used up nobody else runs, and the
    rest of the list is walked as it stands. *)
Fixpoint broadcast_from (others : list (world → world)) (i : nat)
    (message : value) (w : world) : (exn + unit) * world :=
  match others with
  | [] =>
      for_each (drop i (active_connections w))
               (λ connection, send_json connection message) w
  | step :: others' =>
      match active_connections w !! i with
      | None => (inr tt, w)
      | Some connection =>
          match send_json connection message (step w) with
          | (inr _, w') => broadcast_from others' (S i) message w'
          | (inl e, w') => (inl e, w')
          end
      end
  end.

(** [broadcast] while no other handler runs: the handlers below are
    followed one at a time, each on its own. *)
Definition broadcast (message : value) : M world unit :=
  broadcast_from [] 0 message.

(** The dict literal passed to [broadcast], fields evaluated in order. *)
Definition outbound (message : value) : M world value :=
  type <- lift (value_get message (py "type") (VStr (py "message"))) ;;
  content <- lift (value_get message (py "content") VNone) ;;
  timestamp <- now ;;
  user <- lift (value_get message (py "user") (VStr (py "Anonymous"))) ;;
  ret (VDict (<[py "type" := type]>
             (<[py "content" := content]>
             (<[py "timestamp" := timestamp]>
             (<[py "user" := user]> ∅))))).

(** One turn of the [while True] body on a received frame, the handler
    followed on its own. *)
Definition on_text (data : str) : M world unit :=
  message <- lift (json_loads data) ;;
  out <- outbound message ;;
  broadcast out.

(** The [while True] loop against the items [receive_text] will yield. *)
Fixpoint receive_loop (inbox : list recv) : M world progress :=
  match inbox with
  | [] => ret Awaiting
  | Frame data :: rest => on_text data ;;; receive_loop rest
  | Raised e :: _ => raise e
  end.

Definition websocket_endpoint (websocket : conn) (inbox : list recv)
  : M world progress :=
  connect websocket ;;;
  λ w, match receive_loop inbox w with
       | (inl WebSocketDisconnect, w') =>
           (disconnect websocket ;;; ret Returned) w'
       | r => r
       end.
End Channel.

(** What the handler of [c] does to the world when it unregisters [c]. *)
Definition leaves (c : conn) (w : world) : world := snd (disconnect c w).

(** Other handlers that register and unregister nobody. *)
Definition keeps_connections (step : world → world) : Prop :=
  ∀ w, active_connections (step w) = active_connections w.

(** Other handlers that put nothing on the wire. *)
Definition keeps_wire (step : world → world) : Prop :=
  ∀ w, delivered (step w) = delivered w.

(** One frame put on the wire. *)
Definition sent (c : conn) (message : value) (w : world) : world :=
  World (active_connections w) (delivered w ++ [(c, message)]) (clock_reads w).

(** The fan-out in the spec's words, to compare [broadcast_from] with: the
    message goes to every connection of the membership taken at the start,
    in order; the other handlers run during each send as they do in
    [broadcast_from]. *)
Fixpoint snapshot_pass (others : list (world → world)) (conns : list conn)
    (message : value) (w : world) : world :=
  match conns with
  | [] => w
  | c :: conns' =>
      match others with
      | [] => snapshot_pass [] conns' message (sent c message w)
      | step :: others' =>
          snapshot_pass others' conns' message (sent c message (step w))
      end
  end.

(** ** Sample inputs *)

(** A pipeline that answers every input with one result: score
    [0.7000000000000002], the float next above the literal [0.7], from the
    toxicity model, and [0.9998] labelled POSITIVE from the sentiment one. *)
Definition sample_run (p : pipeline) (_ : value) : exn + list ScoreResult :=
  match p with
  | toxicity_model =>
      inr [ {| label := py "toxic";
               score := 3152519739159348 # 4503599627370496 |} ]
  | sentiment_model =>
      inr [ {| label := py "POSITIVE";
               score := 4502698907445022 # 4503599627370496 |} ]
  end.

Definition request (text : str) : dict := {[ py "text" := VStr text ]}.

Definition hate_text : str := py "I hate you, you are worthless".

(** 600 times the letter a. *)
Definition long_text : str := replicate 600 97%N.

(** A transport on which every handshake and every send goes through. *)
Definition no_error (_ : conn) : option exn := None.

(** A transport on which sending to connection 2 raises. *)
Definition flaky_send (c : conn) : option exn :=
  if decide (c = 2) then Some RuntimeError else None.

(** [json.loads] on the two frames used below: [{}] is the empty dict and
    [oops] is rejected. *)
Definition sample_json_loads (raw : str) : exn + value :=
  if decide (raw = py "{}") then inr (VDict ∅) else inl JSONDecodeError.

Definition sample_clock (n : nat) : str :=
  py "2025-10-25T12:00:0" ++ [(48 + N.of_nat n)%N].

Definition hello : value := VStr (py "hello").

(** Another handler taking a timestamp during a suspension. *)
Definition reads_clock (w : world) : world :=
  World (active_connections w) (delivered w) (S (clock_reads w)).

(** A pipeline that raises on every input. *)
Definition failing_run (_ : pipeline) (_ : value) : exn + list ScoreResult :=
  inl RuntimeError.

(** A pipeline that scores every input [0.6996]. *)
Definition calm_run (_ : pipeline) (_ : value) : exn + list ScoreResult :=
  inr [ {| label := py "toxic";
           score := 3150718299308399 # 4503599627370496 |} ].

(** A transport on which connection 2 has gone away. *)
Definition stale_send (c : conn) : option exn :=
  if decide (c = 2) then Some WebSocketDisconnect else None.

(** [json.loads] on three frames: [{}] is the empty dict, [[]] the empty
    list, and [oops] is rejected. *)
Definition frame_json_loads (raw : str) : exn + value :=
  if decide (raw = py "{}") then inr (VDict ∅)
  else if decide (raw = py "[]") then inr (VList [])
  else inl JSONDecodeError.

(** * Properties *)

(** ** Floats *)

Lemma lit_0_7_nearest : lit_0_7 = nearest_binary64 (7 # 10).
Proof. vm_compute. reflexivity. Qed.

Lemma lit_0_7_binary64 : binary64 lit_0_7.
Proof.
  exists 6305039478318694%Z, (-53)%Z. split; [|split]; [lia | lia |].
  vm_compute. reflexivity.
Qed.

Lemma float_gt_spec (a b : Q) : float_gt a b = true ↔ (b < a)%Q.
Proof.
  unfold float_gt. rewrite negb_true_iff.
  destruct (Qle_bool a b) eqn:E.
  - apply Qle_bool_iff in E. split; [discriminate|].
    intros H. exfalso. exact (Qlt_not_le _ _ H E).
  - split; [intros _|reflexivity].
    apply Qnot_le_lt. intros H. apply Qle_bool_iff in H. congruence.
Qed.

(** No float lies strictly above the literal [0.7] and at or below 7/10. *)
Lemma binary64_above_lit_0_7 (q : Q) :
  binary64 q → (lit_0_7 < q)%Q → (7 # 10 < q)%Q.
Proof.
  intros (m & e & Hm & He & Hq) Hlt. rewrite Hq in Hlt |- *. clear Hq q.
  unfold Qlt, lit_0_7 in *. cbn [Qnum Qden] in *.
  set (k := (e + 1074)%Z) in *.
  assert (HD : Zpos (2 ^ 1074) = (2 ^ 53 * 2 ^ 1021)%Z) by (vm_compute; reflexivity).
  rewrite HD in *. clear HD.
  assert (HP : (0 < 2 ^ 1021)%Z) by (apply Z.pow_pos_nonneg; lia).
  destruct (Z_le_gt_dec 1021 k) as [Hk|Hk].
  - replace k with ((k - 1021) + 1021)%Z in * by lia.
    rewrite Z.pow_add_r in * by lia.
    set (P := (2 ^ 1021)%Z) in *.
    set (j := (m * 2 ^ (k - 1021))%Z).
    replace (m * (2 ^ (k - 1021) * P))%Z with (j * P)%Z in * by (unfold j; ring).
    assert (Hj : (6305039478318694 < j)%Z) by nia.
    nia.
  - exfalso.
    assert (H2k : (2 * 2 ^ k <= 2 ^ 1021)%Z).
    { replace (2 * 2 ^ k)%Z with (2 ^ (k + 1))%Z
        by (rewrite Z.pow_add_r by lia; ring).
      apply Z.pow_le_mono_r; lia. }
    assert (H0k : (0 < 2 ^ k)%Z) by (apply Z.pow_pos_nonneg; lia).
    set (P := (2 ^ 1021)%Z) in *. set (T := (2 ^ k)%Z) in *.
    assert (Hm' : (m < 2 ^ 53)%Z) by lia.
    nia.
Qed.

(** ** The analysis endpoints *)

Lemma dict_get_Some (d : dict) (k : str) (dflt v : value) :
  d !! k = Some v → dict_get d k dflt = v.
Proof. unfold dict_get. intros ->. reflexivity. Qed.

Lemma dict_get_None (d : dict) (k : str) (dflt : value) :
  d !! k = None → dict_get d k dflt = dflt.
Proof. unfold dict_get. intros ->. reflexivity. Qed.

Lemma truthy_str (s : str) : truthy (VStr s) = true ↔ s ≠ [].
Proof. destruct s; simpl; split; congruence. Qed.

Lemma take_nil_inv {A} (n : nat) (s : list A) : take (S n) s = [] → s = [].
Proof. destruct s; [reflexivity|discriminate]. Qed.

(** The emoji table, with its default, as a function of the label. *)
Lemma sentiment_emoji_get (l : str) :
  dict_get sentiment_emoji l (VStr [128528%N]) =
    if decide (l = py "POSITIVE") then VStr [128522%N]
    else if decide (l = py "NEGATIVE") then VStr [128544%N]
    else VStr [128528%N].
Proof.
  unfold dict_get, sentiment_emoji. rewrite !lookup_insert, lookup_empty.
  repeat case_decide; simplify_eq; reflexivity.
Qed.

Section EndpointFacts.
Variable run : pipeline → value → exn + list ScoreResult.

(** What [/api/moderate] does on a non-empty string. *)
Lemma moderate_content_str (data : dict) (s : str) (log : calls) :
  data !! py "text" = Some (VStr s) → s ≠ [] →
  moderate_content run data log =
    let log' := log ++ [(toxicity_model, VStr (take 512 s))] in
    match run toxicity_model (VStr (take 512 s)) with
    | inl e => (inl e, log')
    | inr [] => (inl IndexError, log')
    | inr (result :: _) =>
        (inr (VDict (<[py "is_toxic" := VBool (float_gt (score result) lit_0_7)]>
                    (<[py "confidence" := VFloat (py_round (score result) 3)]>
                    (<[py "label" := VStr (label result)]>
                    (<[py "text_length" := VInt (Z.of_nat (length s))]> ∅))))),
         log')
    end.
Proof.
  intros Hd Hs. apply truthy_str in Hs.
  unfold moderate_content. rewrite (dict_get_Some _ _ _ _ Hd), Hs.
  cbn [negb slice_to len]. unfold bind, lift, call, ret.
  destruct (run toxicity_model (VStr (take 512 s))) as [e|[|r rs]]; reflexivity.
Qed.

Lemma analyze_sentiment_str (data : dict) (s : str) (log : calls) :
  data !! py "text" = Some (VStr s) → s ≠ [] →
  analyze_sentiment run data log =
    let log' := log ++ [(sentiment_model, VStr (take 512 s))] in
    match run sentiment_model (VStr (take 512 s)) with
    | inl e => (inl e, log')
    | inr [] => (inl IndexError, log')
    | inr (result :: _) =>
        (inr (VDict (<[py "sentiment" := VStr (label result)]>
                    (<[py "confidence" := VFloat (py_round (score result) 3)]>
                    (<[py "emoji" :=
                         dict_get sentiment_emoji (label result) (VStr [128528%N])]>
                     ∅)))),
         log')
    end.
Proof.
  intros Hd Hs. apply truthy_str in Hs.
  unfold analyze_sentiment. rewrite (dict_get_Some _ _ _ _ Hd), Hs.
  cbn [negb slice_to]. unfold bind, lift, call, ret.
  destruct (run sentiment_model (VStr (take 512 s))) as [e|[|r rs]]; reflexivity.
Qed.

Lemma moderate_content_no_text (data : dict) (log : calls) :
  data !! py "text" = None ∨ data !! py "text" = Some (VStr []) →
  moderate_content run data log = (inr no_text_provided, log).
Proof.
  intros [Hd|Hd]; unfold moderate_content;
    [rewrite (dict_get_None _ _ _ Hd) | rewrite (dict_get_Some _ _ _ _ Hd)];
    reflexivity.
Qed.

Lemma analyze_sentiment_no_text (data : dict) (log : calls) :
  data !! py "text" = None ∨ data !! py "text" = Some (VStr []) →
  analyze_sentiment run data log = (inr no_text_provided, log).
Proof.
  intros [Hd|Hd]; unfold analyze_sentiment;
    [rewrite (dict_get_None _ _ _ Hd) | rewrite (dict_get_Some _ _ _ _ Hd)];
    reflexivity.
Qed.

(** C8: on [/api/moderate] and [/api/sentiment], a request whose text is
    absent or empty is answered with exactly
    [{"error": "No text provided"}], and no pipeline call is made: the
    call log comes back as it went in. *)
Theorem empty_text_short_circuits (data : dict) (log : calls) :
  data !! py "text" = None ∨ data !! py "text" = Some (VStr []) →
  moderate_content run data log =
    (inr (VDict {[ py "error" := VStr (py "No text provided") ]}), log) ∧
  analyze_sentiment run data log =
    (inr (VDict {[ py "error" := VStr (py "No text provided") ]}), log).
Proof.
  intros H. split.
  - apply moderate_content_no_text, H.
  - apply analyze_sentiment_no_text, H.
Qed.

(** C2: for a non-empty text, [is_toxic] is [True] exactly when the raw
    score the pipeline returned is strictly above 0.70, both as the float
    literal and as the decimal 7/10; a score equal to the literal gives
    [False]; the comparison is made on the raw score, and the rounded value
    only fills the [confidence] field. *)
Theorem is_toxic_iff_raw_score_above_threshold
    (data : dict) (s : str) (log : calls) (r : ScoreResult) (rest : list ScoreResult) :
  data !! py "text" = Some (VStr s) → s ≠ [] →
  run toxicity_model (VStr (take 512 s)) = inr (r :: rest) →
  binary64 (score r) →
  ∃ resp : dict,
    fst (moderate_content run data log) = inr (VDict resp) ∧
    resp !! py "is_toxic" = Some (VBool (float_gt (score r) lit_0_7)) ∧
    (resp !! py "is_toxic" = Some (VBool true) ↔ (7 # 10 < score r)%Q) ∧
    (resp !! py "is_toxic" = Some (VBool true) ↔ (lit_0_7 < score r)%Q) ∧
    ((score r == lit_0_7)%Q → resp !! py "is_toxic" = Some (VBool false)) ∧
    resp !! py "confidence" = Some (VFloat (py_round (score r) 3)).
Proof.
  intros Hd Hs Hrun Hf.
  rewrite (moderate_content_str data s log Hd Hs), Hrun. cbn [fst].
  eexists. split; [reflexivity|].
  assert (Hlook : ∀ b : bool,
    (<[py "is_toxic" := VBool b]>
      (<[py "confidence" := VFloat (py_round (score r) 3)]>
      (<[py "label" := VStr (label r)]>
      (<[py "text_length" := VInt (Z.of_nat (length s))]> ∅))) : dict)
      !! py "is_toxic" = Some (VBool b)) by (intros b; reflexivity).
  rewrite Hlook.
  assert (Hraw : Some (VBool (float_gt (score r) lit_0_7)) = Some (VBool true)
                 ↔ (lit_0_7 < score r)%Q).
  { rewrite <- float_gt_spec. split; [intros [= ->]; reflexivity|intros ->; reflexivity]. }
  split; [reflexivity|]. split; [|split; [exact Hraw|split]].
  - rewrite Hraw. split.
    + apply binary64_above_lit_0_7, Hf.
    + apply Qlt_trans. reflexivity.
  - intros Heq. do 2 f_equal. unfold float_gt.
    apply negb_false_iff, Qle_bool_iff. rewrite Heq. apply Qle_refl.
  - reflexivity.
Qed.

(** C10: for a non-empty text, [text_length] is the length of the whole
    text as it was sent, while the pipeline was called on the first 512
    characters only, that is on [min 512 (length text)] of them. *)
Theorem text_length_counts_whole_text
    (data : dict) (s : str) (log : calls) (r : ScoreResult) (rest : list ScoreResult) :
  data !! py "text" = Some (VStr s) → s ≠ [] →
  run toxicity_model (VStr (take 512 s)) = inr (r :: rest) →
  ∃ resp : dict,
    moderate_content run data log =
      (inr (VDict resp), log ++ [(toxicity_model, VStr (take 512 s))]) ∧
    resp !! py "text_length" = Some (VInt (Z.of_nat (length s))) ∧
    length (take 512 s) = Nat.min 512 (length s).
Proof.
  intros Hd Hs Hrun.
  rewrite (moderate_content_str data s log Hd Hs), Hrun.
  eexists. split; [reflexivity|]. split; [reflexivity|].
  apply length_take.
Qed.

(** C6: both endpoints call their pipeline on the first 512 characters
    of a non-empty text and on nothing else, and answer from the result of
    that call.  So two texts with the same first 512 characters make the
    same pipeline calls, get the same [/api/sentiment] answer, and get
    [/api/moderate] answers that agree on every field but [text_length]. *)
Theorem only_first_512_characters_scored
    (d1 d2 : dict) (s1 s2 : str) (log : calls) :
  d1 !! py "text" = Some (VStr s1) → d2 !! py "text" = Some (VStr s2) →
  take 512 s1 = take 512 s2 →
  analyze_sentiment run d1 log = analyze_sentiment run d2 log ∧
  (s1 ≠ [] →
   snd (analyze_sentiment run d1 log) =
     log ++ [(sentiment_model, VStr (take 512 s1))] ∧
   snd (moderate_content run d1 log) =
     log ++ [(toxicity_model, VStr (take 512 s1))] ∧
   (∀ r rest,
      run sentiment_model (VStr (take 512 s1)) = inr (r :: rest) →
      ∃ resp : dict,
        fst (analyze_sentiment run d1 log) = inr (VDict resp) ∧
        resp !! py "sentiment" = Some (VStr (label r)) ∧
        resp !! py "confidence" = Some (VFloat (py_round (score r) 3)) ∧
        resp !! py "emoji" =
          Some (dict_get sentiment_emoji (label r) (VStr [128528%N]))) ∧
   (∀ r rest,
      run toxicity_model (VStr (take 512 s1)) = inr (r :: rest) →
      ∃ resp : dict,
        fst (moderate_content run d1 log) = inr (VDict resp) ∧
        resp !! py "is_toxic" = Some (VBool (float_gt (score r) lit_0_7)) ∧
        resp !! py "confidence" = Some (VFloat (py_round (score r) 3)) ∧
        resp !! py "label" = Some (VStr (label r))) ∧
   (∀ p e, run p (VStr (take 512 s1)) = inl e →
      fst ((match p with
            | toxicity_model => moderate_content
            | sentiment_model => analyze_sentiment
            end) run d1 log) = inl e)) ∧
  ∃ o1 o2 log',
    moderate_content run d1 log = (o1, log') ∧
    moderate_content run d2 log = (o2, log') ∧
    (s1 ≠ [] → log' = log ++ [(toxicity_model, VStr (take 512 s1))]) ∧
    match o1, o2 with
    | inr (VDict a), inr (VDict b) =>
        ∀ k, k ≠ py "text_length" → a !! k = b !! k
    | _, _ => o1 = o2
    end.
Proof.
  intros H1 H2 Ht.
  destruct (decide (s1 = [])) as [->|Hs1].
  - symmetry in Ht. apply take_nil_inv in Ht. subst s2.
    rewrite !analyze_sentiment_no_text, !moderate_content_no_text by (right; assumption).
    split; [reflexivity|]. split; [congruence|].
    eexists _, _, _. split; [reflexivity|]. split; [reflexivity|].
    split; [congruence|]. cbn. reflexivity.
  - assert (Hs2 : s2 ≠ []).
    { intros ->. apply take_nil_inv in Ht. contradiction. }
    rewrite (analyze_sentiment_str d1 s1 log H1 Hs1),
            (analyze_sentiment_str d2 s2 log H2 Hs2),
            (moderate_content_str d1 s1 log H1 Hs1),
            (moderate_content_str d2 s2 log H2 Hs2), <- Ht.
    split; [reflexivity|]. cbn zeta. split.
    + intros _. split; [|split; [|split; [|split]]].
      * destruct (run sentiment_model (VStr (take 512 s1))) as [e|[|r rs]];
          reflexivity.
      * destruct (run toxicity_model (VStr (take 512 s1))) as [e|[|r rs]];
          reflexivity.
      * intros r rest ->. cbn [fst]. eexists. split; [reflexivity|].
        split; [reflexivity|]. split; reflexivity.
      * intros r rest ->. cbn [fst]. eexists. split; [reflexivity|].
        split; [reflexivity|]. split; reflexivity.
      * intros [] e He; cbv beta iota;
          [rewrite (moderate_content_str d1 s1 log H1 Hs1)
          |rewrite (analyze_sentiment_str d1 s1 log H1 Hs1)];
          rewrite He; reflexivity.
    + destruct (run toxicity_model (VStr (take 512 s1))) as [e|[|r rs]].
      * eexists _, _, _. repeat split; reflexivity.
      * eexists _, _, _. repeat split; reflexivity.
      * eexists _, _, _. split; [reflexivity|]. split; [reflexivity|].
        split; [reflexivity|]. intros k Hk.
        rewrite !lookup_insert. repeat case_decide; congruence.
Qed.

(** C9: whatever label the sentiment pipeline returns, [/api/sentiment]
    answers with an [emoji] field: U+1F60A for POSITIVE, U+1F620 for
    NEGATIVE, and U+1F610 for NEUTRAL and for every other label. *)
Theorem sentiment_emoji_total
    (data : dict) (s : str) (log : calls) (r : ScoreResult) (rest : list ScoreResult) :
  data !! py "text" = Some (VStr s) → s ≠ [] →
  run sentiment_model (VStr (take 512 s)) = inr (r :: rest) →
  ∃ (resp : dict) (e : N),
    fst (analyze_sentiment run data log) = inr (VDict resp) ∧
    resp !! py "emoji" = Some (VStr [e]) ∧
    (label r = py "POSITIVE" → e = 128522%N) ∧
    (label r = py "NEGATIVE" → e = 128544%N) ∧
    (label r = py "NEUTRAL" → e = 128528%N) ∧
    (label r ≠ py "POSITIVE" → label r ≠ py "NEGATIVE" → e = 128528%N).
Proof.
  intros Hd Hs Hrun.
  rewrite (analyze_sentiment_str data s log Hd Hs), Hrun. cbn [fst].
  rewrite sentiment_emoji_get.
  destruct (decide (label r = py "POSITIVE")) as [HP|HP];
    [|destruct (decide (label r = py "NEGATIVE")) as [HN|HN]];
    eexists _, _; (split; [reflexivity|]); (split; [reflexivity|]);
    repeat split; intros; try reflexivity; try contradiction;
    try (rewrite HP in *; discriminate); try (rewrite HN in *; discriminate).
Qed.
End EndpointFacts.

(** ** The WebSocket channel *)

Lemma list_remove_elem (x : conn) (l : list conn) :
  x ∈ l →
  ∃ pre post,
    l = pre ++ (x :: post) ∧ (x ∉ pre) ∧ list_remove x l = Some (pre ++ post).
Proof.
  induction l as [|y l IH]; intros Hin.
  - inversion Hin.
  - cbn [list_remove]. destruct (decide (y = x)) as [->|Hne].
    + exists [], l. split; [reflexivity|]. split; [apply not_elem_of_nil|reflexivity].
    + destruct IH as (pre & post & -> & Hpre & ->).
      { apply elem_of_cons in Hin as [->|Hin]; [contradiction|exact Hin]. }
      exists (y :: pre), post. split; [reflexivity|]. split; [|reflexivity].
      rewrite not_elem_of_cons. split; [congruence|exact Hpre].
Qed.

Lemma list_remove_not_elem (x : conn) (l : list conn) :
  x ∉ l → list_remove x l = None.
Proof.
  induction l as [|y l IH]; intros Hnin; [reflexivity|].
  apply not_elem_of_cons in Hnin as [Hne Hnin].
  cbn [list_remove]. destruct (decide (y = x)); [congruence|].
  rewrite IH by assumption. reflexivity.
Qed.

Section ChannelFacts.
Variable accept_error : conn → option exn.
Variable send_error : conn → option exn.
Variable json_loads : str → exn + value.
Variable now_isoformat : nat → str.

Local Abbreviation stamp message := (λ c : conn, (c, message)).

(** Alone, [broadcast] walks the list as it was at the start. *)
Lemma broadcast_alone (message : value) (w : world) :
  broadcast send_error message w =
  for_each (active_connections w) (λ c, send_json send_error c message) w.
Proof. reflexivity. Qed.

(** A pass over connections that all take the frame. *)
Lemma for_each_send_all (message : value) (conns : list conn) (w : world) :
  (∀ c, c ∈ conns → send_error c = None) →
  for_each conns (λ c, send_json send_error c message) w =
    (inr tt, World (active_connections w)
                   (delivered w ++ map (stamp message) conns)
                   (clock_reads w)).
Proof.
  revert w. induction conns as [|c conns IH]; intros w Hok.
  - destruct w. cbn. rewrite app_nil_r. reflexivity.
  - cbn [for_each]. unfold bind at 1, send_json at 1.
    rewrite (Hok c) by (apply elem_of_cons; left; reflexivity). unfold modify.
    rewrite IH by (intros c' Hc'; apply Hok, elem_of_cons; right; exact Hc').
    cbn. rewrite <- app_assoc. reflexivity.
Qed.

(** A pass that meets a connection whose send raises. *)
Lemma for_each_send_raises (message : value) (pre post : list conn)
    (bad : conn) (e : exn) (w : world) :
  (∀ c, c ∈ pre → send_error c = None) → send_error bad = Some e →
  for_each (pre ++ bad :: post) (λ c, send_json send_error c message) w =
    (inl e, World (active_connections w)
                  (delivered w ++ map (stamp message) pre)
                  (clock_reads w)).
Proof.
  revert w. induction pre as [|c pre IH]; intros w Hok Hbad.
  - cbn [app for_each]. unfold bind, send_json. rewrite Hbad.
    destruct w. cbn. rewrite app_nil_r. reflexivity.
  - cbn [app for_each]. unfold bind at 1, send_json at 1.
    rewrite (Hok c) by (apply elem_of_cons; left; reflexivity). unfold modify.
    rewrite IH by (try assumption; intros c' Hc'; apply Hok, elem_of_cons; right; exact Hc').
    cbn. rewrite <- app_assoc. reflexivity.
Qed.

Lemma connect_accepted (ws : conn) (w : world) :
  accept_error ws = None →
  connect accept_error ws w =
    (inr tt, World (active_connections w ++ [ws]) (delivered w) (clock_reads w)).
Proof. intros H. unfold connect, accept, bind. rewrite H. reflexivity. Qed.

Lemma outbound_dict (d : dict) (w : world) :
  outbound now_isoformat (VDict d) w =
    (inr (VDict (<[py "type" := dict_get d (py "type") (VStr (py "message"))]>
                (<[py "content" := dict_get d (py "content") VNone]>
                (<[py "timestamp" := VStr (now_isoformat (clock_reads w))]>
                (<[py "user" := dict_get d (py "user") (VStr (py "Anonymous"))]>
                 ∅))))),
     World (active_connections w) (delivered w) (S (clock_reads w))).
Proof. reflexivity. Qed.

(** Nothing in the loop body touches the connection list. *)
Lemma for_each_send_connections (message : value) (conns : list conn) (w : world) :
  active_connections
    (snd (for_each conns (λ c, send_json send_error c message) w)) =
  active_connections w.
Proof.
  revert w. induction conns as [|c conns IH]; intros w; [reflexivity|].
  cbn [for_each]. unfold bind at 1, send_json at 1.
  destruct (send_error c); [reflexivity|]. unfold modify. rewrite IH. reflexivity.
Qed.

Lemma on_text_connections (data : str) (w : world) :
  active_connections (snd (on_text send_error json_loads now_isoformat data w)) =
  active_connections w.
Proof.
  unfold on_text, bind at 1, lift at 1.
  destruct (json_loads data) as [e|message]; [reflexivity|].
  unfold bind at 1.
  destruct message; try reflexivity.
  rewrite outbound_dict. rewrite broadcast_alone.
  cbn [active_connections].
  match goal with |- context [for_each ?l ?f ?w'] =>
    pose proof (for_each_send_connections
      (VDict (<[py "type" := dict_get d (py "type") (VStr (py "message"))]>
             (<[py "content" := dict_get d (py "content") VNone]>
             (<[py "timestamp" := VStr (now_isoformat (clock_reads w))]>
             (<[py "user" := dict_get d (py "user") (VStr (py "Anonymous"))]>
              ∅))))) l w') as H;
    destruct (for_each l f w') as [[?|?] ?]
  end; exact H.
Qed.

Lemma receive_loop_connections (inbox : list recv) (w : world) :
  active_connections
    (snd (receive_loop send_error json_loads now_isoformat inbox w)) =
  active_connections w.
Proof.
  revert w. induction inbox as [|[data|e] inbox IH]; intros w; try reflexivity.
  cbn [receive_loop]. unfold bind.
  pose proof (on_text_connections data w) as H.
  destruct (on_text send_error json_loads now_isoformat data w) as [[e|[]] w'];
    cbn [snd] in *; [exact H|]. rewrite IH. exact H.
Qed.

(** Frames read after a prefix that was handled are handled from the state
    the prefix left. *)
Lemma receive_loop_app (pre rest : list recv) (w w' : world) :
  receive_loop send_error json_loads now_isoformat pre w = (inr Awaiting, w') →
  receive_loop send_error json_loads now_isoformat (pre ++ rest) w =
  receive_loop send_error json_loads now_isoformat rest w'.
Proof.
  revert w. induction pre as [|[data|e] pre IH]; intros w H.
  - cbn in H. injection H as <-. reflexivity.
  - cbn [app receive_loop] in *. unfold bind in *.
    destruct (on_text send_error json_loads now_isoformat data w) as [[e|[]] w1];
      [discriminate|]. apply IH, H.
  - discriminate.
Qed.

Lemma drop_cons_inv {A} (l : list A) (i : nat) (x : A) (rest : list A) :
  drop i l = x :: rest → l !! i = Some x ∧ drop (S i) l = rest.
Proof.
  intros H. split.
  - rewrite <- (Nat.add_0_r i), <- lookup_drop, H. reflexivity.
  - replace (S i) with (i + 1) by lia. rewrite <- drop_drop, H. reflexivity.
Qed.

Lemma send_json_completes (c : conn) (message : value) (w : world) :
  send_error c = None →
  send_json send_error c message w = (inr tt, sent c message w).
Proof. intros H. unfold send_json. rewrite H. reflexivity. Qed.

Lemma send_json_fails (c : conn) (message : value) (w : world) (e : exn) :
  send_error c = Some e → send_json send_error c message w = (inl e, w).
Proof. intros H. unfold send_json. rewrite H. reflexivity. Qed.

(** With nobody else running, the snapshot pass appends one frame per
    connection. *)
Lemma snapshot_pass_alone (conns : list conn) (message : value) (w : world) :
  snapshot_pass [] conns message w =
    World (active_connections w)
          (delivered w ++ map (stamp message) conns) (clock_reads w).
Proof.
  revert w. induction conns as [|c conns IH]; intros w.
  - destruct w. cbn. rewrite app_nil_r. reflexivity.
  - cbn [snapshot_pass]. rewrite IH. unfold sent. cbn.
    rewrite <- app_assoc. reflexivity.
Qed.

Lemma snapshot_pass_connections (others : list (world → world))
    (conns : list conn) (message : value) (w : world) :
  Forall keeps_connections others →
  active_connections (snapshot_pass others conns message w) =
  active_connections w.
Proof.
  revert others w. induction conns as [|c conns IH]; intros others w Hk;
    [reflexivity|].
  cbn [snapshot_pass]. destruct others as [|step others].
  - rewrite IH by constructor. reflexivity.
  - apply Forall_cons in Hk as [Hstep Hk]. rewrite IH by exact Hk.
    cbn. apply Hstep.
Qed.

Lemma snapshot_pass_wire (others : list (world → world))
    (conns : list conn) (message : value) (w : world) :
  Forall keeps_wire others →
  delivered (snapshot_pass others conns message w) =
  delivered w ++ map (stamp message) conns.
Proof.
  revert others w. induction conns as [|c conns IH]; intros others w Hk.
  - cbn. rewrite app_nil_r. reflexivity.
  - cbn [snapshot_pass]. destruct others as [|step others].
    + rewrite IH by constructor. cbn. rewrite <- app_assoc. reflexivity.
    + apply Forall_cons in Hk as [Hstep Hk]. rewrite IH by exact Hk.
      cbn. rewrite Hstep, <- app_assoc. reflexivity.
Qed.

Lemma nth_step_keeps (P : (world → world) → Prop)
    (others : list (world → world)) (k : nat) :
  P id → Forall P others → P (nth k others id).
Proof.
  intros Hid HP. revert k. induction HP as [|step others Hstep _ IH];
    intros [|k]; cbn; auto.
Qed.

(** While the others leave the connection list alone, walking the live
    list is walking the snapshot: every connection takes the frame. *)
Lemma broadcast_from_all_sent (others : list (world → world)) (i : nat)
    (message : value) (w : world) :
  (∀ c, c ∈ drop i (active_connections w) → send_error c = None) →
  Forall keeps_connections others →
  broadcast_from send_error others i message w =
    (inr tt, snapshot_pass others (drop i (active_connections w)) message w).
Proof.
  revert i w. induction others as [|step others IH]; intros i w Hok Hk.
  - cbn [broadcast_from]. rewrite for_each_send_all by exact Hok.
    rewrite snapshot_pass_alone. reflexivity.
  - apply Forall_cons in Hk as [Hstep Hk]. cbn [broadcast_from].
    destruct (active_connections w !! i) as [c|] eqn:Hi.
    + rewrite (drop_S _ _ _ Hi) in Hok |- *. cbn [snapshot_pass].
      rewrite send_json_completes
        by (apply Hok, elem_of_cons; left; reflexivity).
      assert (Hac : active_connections (sent c message (step w)) =
                    active_connections w) by apply Hstep.
      rewrite IH; [rewrite Hac; reflexivity| |exact Hk].
      rewrite Hac. intros c' Hc'. apply Hok, elem_of_cons. right. exact Hc'.
    + apply lookup_ge_None in Hi. rewrite drop_ge by exact Hi. reflexivity.
Qed.

(** While the others leave the connection list alone, the walk stops at
    the first connection whose send raises. *)
Lemma broadcast_from_raises (others : list (world → world)) (i : nat)
    (message : value) (w : world) (pre post : list conn) (bad : conn)
    (e : exn) :
  drop i (active_connections w) = pre ++ bad :: post →
  (∀ c, c ∈ pre → send_error c = None) →
  send_error bad = Some e →
  Forall keeps_connections others →
  broadcast_from send_error others i message w =
    (inl e, nth (length pre) others id (snapshot_pass others pre message w)).
Proof.
  revert i w pre. induction others as [|step others IH];
    intros i w pre Hl Hok Hbad Hk.
  - cbn [broadcast_from]. rewrite Hl.
    rewrite (for_each_send_raises message pre post bad e w Hok Hbad).
    rewrite snapshot_pass_alone. destruct (length pre); reflexivity.
  - apply Forall_cons in Hk as [Hstep Hk]. cbn [broadcast_from].
    destruct pre as [|c pre]; cbn [app] in Hl;
      apply drop_cons_inv in Hl as [Hi Hl]; rewrite Hi.
    + rewrite (send_json_fails bad message (step w) e Hbad). reflexivity.
    + rewrite send_json_completes
        by (apply Hok, elem_of_cons; left; reflexivity).
      cbn [length nth snapshot_pass]. apply IH; [|intros c' Hc'|exact Hbad|exact Hk].
      * cbn [sent active_connections]. rewrite Hstep. exact Hl.
      * apply Hok, elem_of_cons. right. exact Hc'.
Qed.

(** Suspensions during which nobody else does anything change nothing:
    walking the live list by position is then walking it as it stands. *)
Lemma broadcast_from_idle (n i : nat) (message : value) (w : world) :
  broadcast_from send_error (replicate n id) i message w =
  broadcast_from send_error [] i message w.
Proof.
  revert i w. induction n as [|n IH]; intros i w; [reflexivity|].
  cbn [replicate broadcast_from]. unfold id at 1.
  destruct (active_connections w !! i) as [c|] eqn:Hi.
  - rewrite (drop_S _ _ _ Hi). cbn [for_each]. unfold bind.
    destruct (send_error c) as [e|] eqn:Hc.
    + rewrite (send_json_fails c message w e Hc). reflexivity.
    + rewrite (send_json_completes c message w Hc), IH. reflexivity.
  - apply lookup_ge_None in Hi. rewrite drop_ge by exact Hi. reflexivity.
Qed.

(** C4, as the code has it: when every registered connection takes the
    frame and nobody registers or unregisters while the fan-out is under
    way, the fan-out walks the list as the snapshot pass does: it puts one
    copy of the same message on the wire per registered connection, in the
    order of the list, which is the order of registration since [connect]
    appends; no connection is skipped, the sender included.  When the other
    handlers send nothing meanwhile, the wire has grown by exactly these
    frames. *)
Theorem broadcast_delivers_to_all (others : list (world → world))
    (message : value) (w : world) :
  (∀ c, c ∈ active_connections w → send_error c = None) →
  Forall keeps_connections others →
  ∃ w',
    broadcast_from send_error others 0 message w = (inr tt, w') ∧
    w' = snapshot_pass others (active_connections w) message w ∧
    active_connections w' = active_connections w ∧
    (Forall keeps_wire others →
     delivered w' =
       delivered w ++ map (stamp message) (active_connections w) ∧
     length (delivered w') =
       length (delivered w) + length (active_connections w) ∧
     (∀ sender, sender ∈ active_connections w →
                (sender, message) ∈ delivered w')) ∧
    (∀ ws, accept_error ws = None →
           connect accept_error ws w =
             (inr tt, World (active_connections w ++ [ws])
                            (delivered w) (clock_reads w))).
Proof.
  intros Hok Hk. eexists. split.
  { rewrite broadcast_from_all_sent; [rewrite drop_0; reflexivity| |exact Hk].
    rewrite drop_0. exact Hok. }
  split; [reflexivity|]. split; [apply snapshot_pass_connections, Hk|].
  split.
  - intros Hw. rewrite (snapshot_pass_wire _ _ _ _ Hw).
    split; [reflexivity|]. split.
    + rewrite length_app, length_map. reflexivity.
    + intros sender Hin. apply elem_of_app. right.
      apply (list_elem_of_fmap_2 (stamp message)), Hin.
  - intros ws. apply connect_accepted.
Qed.

(** C1, as the code has it: when the send to one connection raises and
    nobody registers or unregisters while the fan-out is under way, the
    connections listed before it have been served as by the snapshot pass,
    the exception leaves [broadcast] at once, during that send, so that no
    connection listed after it is served, and the connection list is what
    it was, the failed connection included.  When the other handlers send
    nothing meanwhile, the wire has grown by exactly the frames of the
    connections listed before the failed one. *)
Theorem broadcast_stops_at_failed_send (others : list (world → world))
    (message : value) (w : world)
    (pre post : list conn) (bad : conn) (e : exn) :
  active_connections w = pre ++ bad :: post →
  (∀ c, c ∈ pre → send_error c = None) →
  send_error bad = Some e →
  Forall keeps_connections others →
  ∃ w',
    broadcast_from send_error others 0 message w = (inl e, w') ∧
    w' = nth (length pre) others id (snapshot_pass others pre message w) ∧
    active_connections w' = active_connections w ∧
    (Forall keeps_wire others →
     delivered w' = delivered w ++ map (stamp message) pre).
Proof.
  intros Hl Hok Hbad Hk. eexists. split.
  { apply (broadcast_from_raises others 0 message w pre post bad e);
      [rewrite drop_0; exact Hl|exact Hok|exact Hbad|exact Hk]. }
  split; [reflexivity|]. split.
  - rewrite (nth_step_keeps keeps_connections others (length pre)
               (λ _, eq_refl) Hk).
    apply snapshot_pass_connections, Hk.
  - intros Hw.
    rewrite (nth_step_keeps keeps_wire others (length pre) (λ _, eq_refl) Hw).
    apply snapshot_pass_wire, Hw.
Qed.

(** C5, as the code has it: [disconnect] on a listed handle removes its
    first occurrence and nothing else; on a handle that is not listed it
    raises [ValueError] and leaves the list as it was. *)
Theorem disconnect_removes_first_or_raises (ws : conn) (w : world) :
  (ws ∈ active_connections w →
   ∃ pre post,
     active_connections w = pre ++ (ws :: post) ∧ (ws ∉ pre) ∧
     disconnect ws w =
       (inr tt, World (pre ++ post) (delivered w) (clock_reads w))) ∧
  (ws ∉ active_connections w → disconnect ws w = (inl ValueError, w)).
Proof.
  split; intros H.
  - destruct (list_remove_elem ws _ H) as (pre & post & Hl & Hpre & Hrm).
    exists pre, post. split; [exact Hl|]. split; [exact Hpre|].
    unfold disconnect. rewrite Hrm. reflexivity.
  - unfold disconnect. rewrite (list_remove_not_elem ws _ H). reflexivity.
Qed.

(** C7: from an inbound dict the handler builds a dict whose [type] is
    the inbound one, or "message" when the key is missing; whose [content]
    is the inbound one, or [None] when missing; whose [user] is the inbound
    one, or "Anonymous" when missing; and whose [timestamp] is the clock
    read while the dict is built, after the frame was parsed, in ISO
    format.  That dict is what [broadcast] is called with. *)
Theorem outbound_message_fields (d : dict) (w : world) :
  ∃ out : dict,
    outbound now_isoformat (VDict d) w =
      (inr (VDict out),
       World (active_connections w) (delivered w) (S (clock_reads w))) ∧
    out !! py "type" =
      Some (match d !! py "type" with
            | Some v => v
            | None => VStr (py "message")
            end) ∧
    out !! py "content" =
      Some (match d !! py "content" with Some v => v | None => VNone end) ∧
    out !! py "user" =
      Some (match d !! py "user" with
            | Some v => v
            | None => VStr (py "Anonymous")
            end) ∧
    out !! py "timestamp" = Some (VStr (now_isoformat (clock_reads w))) ∧
    (∀ data, json_loads data = inr (VDict d) →
       on_text send_error json_loads now_isoformat data w =
         broadcast send_error (VDict out)
           (World (active_connections w) (delivered w) (S (clock_reads w)))).
Proof.
  eexists. split; [apply outbound_dict|].
  split; [reflexivity|]. split; [reflexivity|]. split; [reflexivity|].
  split; [reflexivity|].
  intros data Hdata. unfold on_text, bind at 1, lift at 1. rewrite Hdata.
  unfold bind at 1. rewrite outbound_dict. reflexivity.
Qed.

(** C3, as the code has it: when [json.loads] rejects a frame, the
    exception is not caught by the handler.  Whatever frames were handled
    before, the handler ends there with [JSONDecodeError]: nothing is
    broadcast for the frame, later frames are not read, and the connection
    list and the wire are as the earlier frames left them. *)
Theorem malformed_frame_ends_handler (websocket : conn) (w w' : world)
    (pre rest : list recv) (data : str) :
  accept_error websocket = None →
  receive_loop send_error json_loads now_isoformat pre
    (World (active_connections w ++ [websocket]) (delivered w) (clock_reads w))
    = (inr Awaiting, w') →
  json_loads data = inl JSONDecodeError →
  websocket_endpoint accept_error send_error json_loads now_isoformat
    websocket (pre ++ Frame data :: rest) w = (inl JSONDecodeError, w').
Proof.
  intros Hacc Hpre Hbad.
  unfold websocket_endpoint, bind at 1. rewrite connect_accepted by assumption.
  rewrite (receive_loop_app pre _ _ _ Hpre).
  cbn [receive_loop]. unfold bind at 1, on_text, bind at 1, lift at 1.
  rewrite Hbad. reflexivity.
Qed.
End ChannelFacts.

(** * Concrete runs *)

(** The spec's example request: 29 characters, flagged by a score just above
    the threshold. *)
Example moderate_hate_text :
  fst (moderate_content sample_run (request hate_text) []) =
    inr (VDict (<[py "is_toxic" := VBool true]>
               (<[py "confidence" := VFloat lit_0_7]>
               (<[py "label" := VStr (py "toxic")]>
               (<[py "text_length" := VInt 29]> ∅))))).
Proof. vm_compute. reflexivity. Qed.

(** Two raw scores that are displayed as the same [confidence], 0.7, and
    fall on different sides of the threshold. *)
Example same_confidence_different_verdict :
  py_round (nearest_binary64 (7004 # 10000)) 3 = lit_0_7 ∧
  py_round (nearest_binary64 (6996 # 10000)) 3 = lit_0_7 ∧
  float_gt (nearest_binary64 (7004 # 10000)) lit_0_7 = true ∧
  float_gt (nearest_binary64 (6996 # 10000)) lit_0_7 = false ∧
  float_gt (py_round (nearest_binary64 (7004 # 10000)) 3) lit_0_7 = false.
Proof. vm_compute. repeat split; reflexivity. Qed.

Lemma sample_score_binary64 : binary64 (3152519739159348 # 4503599627370496).
Proof.
  exists 3152519739159348%Z, (-52)%Z. split; [|split]; [lia | lia |].
  vm_compute. reflexivity.
Defined.

Lemma is_toxic_iff_raw_score_above_threshold_witness :
  request hate_text !! py "text" = Some (VStr hate_text) ∧
  hate_text ≠ [] ∧
  sample_run toxicity_model (VStr (take 512 hate_text)) =
    inr [ {| label := py "toxic";
             score := 3152519739159348 # 4503599627370496 |} ] ∧
  ∃ resp : dict,
    fst (moderate_content sample_run (request hate_text) []) = inr (VDict resp) ∧
    resp !! py "is_toxic" = Some (VBool true).
Proof.
  split; [reflexivity|]. split; [discriminate|]. split; [reflexivity|].
  destruct (is_toxic_iff_raw_score_above_threshold sample_run
              (request hate_text) hate_text []
              {| label := py "toxic";
                 score := 3152519739159348 # 4503599627370496 |} [])
    as (resp & Hresp & Hraw & _).
  - reflexivity.
  - discriminate.
  - reflexivity.
  - exact sample_score_binary64.
  - exists resp. split; [exact Hresp|]. rewrite Hraw. reflexivity.
Defined.

Lemma empty_text_short_circuits_witness :
  (request [] !! py "text" = None ∨ request [] !! py "text" = Some (VStr [])) ∧
  moderate_content sample_run (request []) [] =
    (inr (VDict {[ py "error" := VStr (py "No text provided") ]}), []) ∧
  analyze_sentiment sample_run (request []) [] =
    (inr (VDict {[ py "error" := VStr (py "No text provided") ]}), []).
Proof.
  split; [right; reflexivity|].
  apply (empty_text_short_circuits sample_run (request []) []).
  right. reflexivity.
Defined.

Lemma text_length_counts_whole_text_witness :
  request long_text !! py "text" = Some (VStr long_text) ∧
  long_text ≠ [] ∧
  ∃ resp : dict,
    moderate_content sample_run (request long_text) [] =
      (inr (VDict resp), [(toxicity_model, VStr (take 512 long_text))]) ∧
    resp !! py "text_length" = Some (VInt 600) ∧
    length (take 512 long_text) = 512.
Proof.
  split; [reflexivity|]. split; [discriminate|].
  apply (text_length_counts_whole_text sample_run (request long_text) long_text []
           {| label := py "toxic";
              score := 3152519739159348 # 4503599627370496 |} []).
  - reflexivity.
  - discriminate.
  - reflexivity.
Defined.

Lemma only_first_512_characters_scored_witness :
  take 512 (take 512 long_text ++ py "x") = take 512 long_text ∧
  analyze_sentiment sample_run (request (take 512 long_text ++ py "x")) [] =
  analyze_sentiment sample_run (request long_text) [] ∧
  snd (analyze_sentiment sample_run (request (take 512 long_text ++ py "x")) []) =
    [] ++ [(sentiment_model, VStr (take 512 (take 512 long_text ++ py "x")))].
Proof.
  split; [reflexivity|].
  destruct (only_first_512_characters_scored sample_run
              (request (take 512 long_text ++ py "x")) (request long_text)
              (take 512 long_text ++ py "x") long_text [])
    as (Hsame & Hpin & _).
  - reflexivity.
  - reflexivity.
  - reflexivity.
  - split; [exact Hsame|]. apply Hpin. discriminate.
Defined.

Lemma sentiment_emoji_total_witness :
  request hate_text !! py "text" = Some (VStr hate_text) ∧
  ∃ (resp : dict) (e : N),
    fst (analyze_sentiment sample_run (request hate_text) []) = inr (VDict resp) ∧
    resp !! py "emoji" = Some (VStr [e]) ∧ e = 128522%N.
Proof.
  split; [reflexivity|].
  destruct (sentiment_emoji_total sample_run (request hate_text) hate_text []
              {| label := py "POSITIVE";
                 score := 4502698907445022 # 4503599627370496 |} [])
    as (resp & e & Hresp & He & Hpos & _).
  - reflexivity.
  - discriminate.
  - reflexivity.
  - exists resp, e. split; [exact Hresp|]. split; [exact He|].
    apply Hpos. reflexivity.
Defined.

(** C1, counterexample: with connections 1, 2, 3 listed and the send to 2
    raising, [broadcast] serves 1 and raises; 3 is not served and 2 is still
    listed. *)
Lemma broadcast_failure_counterexample :
  flaky_send 2 = Some RuntimeError ∧
  broadcast flaky_send hello (World [1; 2; 3] [] 0) =
    (inl RuntimeError, World [1; 2; 3] [(1, hello)] 0) ∧
  ¬ ((∀ c, c ∈ [1; 2; 3] → c ≠ 2 →
        (c, hello) ∈ delivered (snd (broadcast flaky_send hello (World [1; 2; 3] [] 0)))) ∧
     2 ∉ active_connections (snd (broadcast flaky_send hello (World [1; 2; 3] [] 0)))).
Proof.
  split; [reflexivity|]. split; [reflexivity|].
  intros [_ Hgone]. apply Hgone. cbn.
  apply elem_of_cons. right. apply elem_of_cons. left. reflexivity.
Qed.

Lemma broadcast_stops_at_failed_send_witness :
  flaky_send 2 = Some RuntimeError ∧
  Forall keeps_connections [reads_clock] ∧
  ∃ w',
    broadcast_from flaky_send [reads_clock] 0 hello (World [1; 2; 3] [] 0) =
      (inl RuntimeError, w') ∧
    active_connections w' = [1; 2; 3] ∧
    delivered w' = [] ++ map (λ c, (c, hello)) [1].
Proof.
  assert (Hk : Forall keeps_connections [reads_clock]).
  { apply Forall_cons. split; [intros w; reflexivity|apply Forall_nil_2]. }
  assert (Hw : Forall keeps_wire [reads_clock]).
  { apply Forall_cons. split; [intros w; reflexivity|apply Forall_nil_2]. }
  split; [reflexivity|]. split; [exact Hk|].
  destruct (broadcast_stops_at_failed_send flaky_send [reads_clock] hello
              (World [1; 2; 3] [] 0) [1] [3] 2 RuntimeError)
    as (w' & Hrun & _ & Hac & Hwire).
  - reflexivity.
  - intros c Hc. apply elem_of_cons in Hc as [->|Hc]; [reflexivity|].
    apply elem_of_nil in Hc. contradiction.
  - reflexivity.
  - exact Hk.
  - exists w'. split; [exact Hrun|]. split; [exact Hac|exact (Hwire Hw)].
Defined.

(** C4, counterexample: connections 1, 2, 3 are listed and every send
    succeeds; while the send to 1 is suspended the handler of 1 unregisters
    it.  The walk goes on at position 1 of the list, which now holds 3: two
    frames are delivered, and 2, listed all along, gets none. *)
Lemma broadcast_interleaved_counterexample :
  broadcast_from no_error [leaves 1] 0 hello (World [1; 2; 3] [] 0) =
    (inr tt, World [2; 3] [(1, hello); (3, hello)] 0) ∧
  2 ∈ [2; 3] ∧
  ¬ ((2, hello) ∈ [(1, hello); (3, hello)]) ∧
  length [(1, hello); (3, hello)] ≠ length [1; 2; 3].
Proof.
  split; [reflexivity|]. split; [|split; [|discriminate]].
  - apply elem_of_cons. left. reflexivity.
  - intros H. repeat (apply elem_of_cons in H as [H|H]; [discriminate|]).
    apply elem_of_nil in H. exact H.
Qed.

Lemma broadcast_delivers_to_all_witness :
  Forall keeps_connections [reads_clock] ∧
  ∃ w',
    broadcast_from no_error [reads_clock] 0 hello (World [1; 2; 3] [] 0) =
      (inr tt, w') ∧
    delivered w' = [] ++ map (λ c, (c, hello)) [1; 2; 3].
Proof.
  assert (Hk : Forall keeps_connections [reads_clock]).
  { apply Forall_cons. split; [intros w; reflexivity|apply Forall_nil_2]. }
  assert (Hw : Forall keeps_wire [reads_clock]).
  { apply Forall_cons. split; [intros w; reflexivity|apply Forall_nil_2]. }
  split; [exact Hk|].
  destruct (broadcast_delivers_to_all no_error no_error [reads_clock] hello
              (World [1; 2; 3] [] 0)) as (w' & Hrun & _ & _ & Hwire & _).
  - intros c _. reflexivity.
  - exact Hk.
  - exists w'. split; [exact Hrun|]. exact (proj1 (Hwire Hw)).
Defined.

(** C5, counterexample: [disconnect] on a handle that is not listed raises
    [ValueError]; it is not a silent no-op. *)
Lemma disconnect_absent_counterexample :
  (1 ∉ [2; 3]) ∧
  disconnect 1 (World [2; 3] [] 0) = (inl ValueError, World [2; 3] [] 0) ∧
  disconnect 1 (World [2; 3] [] 0) ≠ (inr tt, World [2; 3] [] 0).
Proof.
  split; [|split; [reflexivity|discriminate]].
  intros H. apply elem_of_cons in H as [H|H]; [discriminate|].
  apply elem_of_cons in H as [H|H]; [discriminate|].
  apply elem_of_nil in H. exact H.
Qed.

Lemma disconnect_removes_first_or_raises_witness :
  (∃ pre post,
     [1; 2; 3; 2] = pre ++ (2 :: post) ∧ (2 ∉ pre) ∧
     disconnect 2 (World [1; 2; 3; 2] [] 0) = (inr tt, World (pre ++ post) [] 0)) ∧
  disconnect 5 (World [1; 2; 3; 2] [] 0) = (inl ValueError, World [1; 2; 3; 2] [] 0).
Proof.
  split.
  - apply (proj1 (disconnect_removes_first_or_raises 2 (World [1; 2; 3; 2] [] 0))).
    apply elem_of_cons. right. apply elem_of_cons. left. reflexivity.
  - apply (proj2 (disconnect_removes_first_or_raises 5 (World [1; 2; 3; 2] [] 0))).
    cbn. intros H. repeat (apply elem_of_cons in H as [H|H]; [discriminate|]).
    apply elem_of_nil in H. exact H.
Defined.

Lemma outbound_message_fields_witness :
  sample_json_loads (py "{}") = inr (VDict ∅) ∧
  ∃ out : dict,
    out !! py "type" = Some (VStr (py "message")) ∧
    out !! py "content" = Some VNone ∧
    out !! py "user" = Some (VStr (py "Anonymous")) ∧
    out !! py "timestamp" = Some (VStr (sample_clock 0)) ∧
    on_text no_error sample_json_loads sample_clock (py "{}") (World [7] [] 0) =
      broadcast no_error (VDict out) (World [7] [] 1).
Proof.
  split; [reflexivity|].
  destruct (outbound_message_fields no_error sample_json_loads sample_clock
              ∅ (World [7] [] 0))
    as (out & _ & Hty & Hco & Hus & Hts & Hsend).
  exists out. split; [exact Hty|]. split; [exact Hco|]. split; [exact Hus|].
  split; [exact Hts|]. apply Hsend. reflexivity.
Defined.

(** C3, counterexample: a handler that reads the frame [oops] and then the
    frame [{}] ends on the first with [JSONDecodeError] and broadcasts
    nothing, while on [{}] alone it broadcasts and goes on waiting: the bad
    frame is not skipped. *)
Lemma malformed_frame_counterexample :
  sample_json_loads (py "oops") = inl JSONDecodeError ∧
  websocket_endpoint no_error no_error sample_json_loads sample_clock 7
    [Frame (py "oops"); Frame (py "{}")] (World [] [] 0) =
    (inl JSONDecodeError, World [7] [] 0) ∧
  fst (websocket_endpoint no_error no_error sample_json_loads sample_clock 7
         [Frame (py "{}")] (World [] [] 0)) = inr Awaiting ∧
  length (delivered (snd
    (websocket_endpoint no_error no_error sample_json_loads sample_clock 7
       [Frame (py "{}")] (World [] [] 0)))) = 1 ∧
  websocket_endpoint no_error no_error sample_json_loads sample_clock 7
    [Frame (py "oops"); Frame (py "{}")] (World [] [] 0) ≠
  websocket_endpoint no_error no_error sample_json_loads sample_clock 7
    [Frame (py "{}")] (World [] [] 0).
Proof.
  split; [reflexivity|]. split; [reflexivity|]. split; [reflexivity|].
  split; [reflexivity|]. intros H. apply (f_equal fst) in H. discriminate H.
Qed.

Lemma malformed_frame_ends_handler_witness :
  sample_json_loads (py "oops") = inl JSONDecodeError ∧
  websocket_endpoint no_error no_error sample_json_loads sample_clock 7
    ([Frame (py "{}")] ++ Frame (py "oops") :: [Frame (py "{}")]) (World [] [] 0) =
    (inl JSONDecodeError,
     snd (receive_loop no_error sample_json_loads sample_clock [Frame (py "{}")]
            (World ([] ++ [7]) [] 0))).
Proof.
  split; [reflexivity|].
  apply (malformed_frame_ends_handler no_error no_error sample_json_loads
           sample_clock 7 (World [] [] 0)
           (snd (receive_loop no_error sample_json_loads sample_clock
                   [Frame (py "{}")] (World ([] ++ [7]) [] 0)))
           [Frame (py "{}")] [Frame (py "{}")] (py "oops")).
  - reflexivity.
  - reflexivity.
  - reflexivity.
Defined.

(** * Further properties *)

(** ** Rounding to three decimals *)

Lemma round_half_even_near (q : Q) :
  (inject_Z (round_half_even q) - (1 # 2) <= q)%Q ∧
  (q <= inject_Z (round_half_even q) + (1 # 2))%Q.
Proof.
  unfold round_half_even.
  pose proof (Qfloor_le q) as Hlo. pose proof (Qlt_floor q) as Hhi.
  rewrite inject_Z_plus in Hhi. change (inject_Z 1) with 1%Q in Hhi.
  destruct (Qcompare_spec (q - inject_Z (Qfloor q)) (1 # 2)) as [He|Hl|Hg].
  - destruct (Z.even (Qfloor q)).
    + split; lra.
    + rewrite inject_Z_plus. change (inject_Z 1) with 1%Q. split; lra.
  - split; lra.
  - rewrite inject_Z_plus. change (inject_Z 1) with 1%Q. split; lra.
Qed.

Lemma inject_Z_le_half (n k : Z) :
  (inject_Z n <= inject_Z k + (1 # 2))%Q → (n ≤ k)%Z.
Proof. unfold Qle. cbn. lia. Qed.

Lemma inject_Z_ge_half (n k : Z) :
  (inject_Z k - (1 # 2) <= inject_Z n)%Q → (k ≤ n)%Z.
Proof. unfold Qle. cbn. lia. Qed.

(** A check that holds of every thousandth [n/1000] for [n] up to a bound is
    established by running it on each of them. *)
Lemma thousandths_checked (check : Z → bool) (bound : nat) :
  forallb check (List.map Z.of_nat (seq 0 (S bound))) = true →
  ∀ n : Z, (0 ≤ n ≤ Z.of_nat bound)%Z → check n = true.
Proof.
  intros Hall n Hn. rewrite forallb_forall in Hall. apply Hall.
  rewrite <- (Z2Nat.id n) by lia. apply in_map, in_seq. lia.
Qed.

Lemma thousandth_in_unit_interval (n : Z) :
  (0 ≤ n ≤ 1000)%Z →
  (0 <= nearest_binary64 (inject_Z n / inject_Z 1000))%Q ∧
  (nearest_binary64 (inject_Z n / inject_Z 1000) <= 1)%Q.
Proof.
  intros Hn.
  pose proof (thousandths_checked
    (λ n, Qle_bool 0 (nearest_binary64 (inject_Z n / inject_Z 1000)) &&
          Qle_bool (nearest_binary64 (inject_Z n / inject_Z 1000)) 1)
    1000 ltac:(vm_compute; reflexivity) n Hn) as H.
  cbn beta in H. apply andb_true_iff in H as [H0 H1].
  split; apply Qle_bool_iff; assumption.
Qed.

Lemma thousandth_below_threshold (n : Z) :
  (0 ≤ n ≤ 700)%Z →
  (nearest_binary64 (inject_Z n / inject_Z 1000) <= lit_0_7)%Q.
Proof.
  intros Hn.
  pose proof (thousandths_checked
    (λ n, Qle_bool (nearest_binary64 (inject_Z n / inject_Z 1000)) lit_0_7)
    700 ltac:(vm_compute; reflexivity) n Hn) as H.
  cbn beta in H. apply Qle_bool_iff. exact H.
Qed.

Lemma py_round_3 (x : Q) :
  py_round x 3 =
  nearest_binary64 (inject_Z (round_half_even (x * inject_Z 1000)) / inject_Z 1000).
Proof. reflexivity. Qed.

(** [round(x, 3)] of a number in the unit interval. *)
Lemma py_round_3_unit (x : Q) :
  (0 <= x)%Q → (x <= 1)%Q →
  ∃ n : Z,
    (0 ≤ n ≤ 1000)%Z ∧
    py_round x 3 = nearest_binary64 (inject_Z n / inject_Z 1000) ∧
    (inject_Z n - (1 # 2) <= 1000 * x)%Q ∧ (1000 * x <= inject_Z n + (1 # 2))%Q ∧
    (0 <= py_round x 3)%Q ∧ (py_round x 3 <= 1)%Q.
Proof.
  intros H0 H1. rewrite py_round_3.
  set (n := round_half_even (x * inject_Z 1000)).
  destruct (round_half_even_near (x * inject_Z 1000)) as [Hlo Hhi]. fold n in Hlo, Hhi.
  change (inject_Z 1000) with 1000%Q in Hlo, Hhi.
  assert (Hn : (0 ≤ n ≤ 1000)%Z).
  { split.
    - apply (inject_Z_ge_half n 0). change (inject_Z 0) with 0%Q. lra.
    - apply (inject_Z_le_half n 1000). change (inject_Z 1000) with 1000%Q. lra. }
  exists n. split; [exact Hn|]. split; [reflexivity|].
  split; [lra|]. split; [lra|]. apply thousandth_in_unit_interval, Hn.
Qed.

(** ** The analysis endpoints on every request *)

(** The field [k] of a returned dict. *)
Lemma VDict_lookup_eq (m m' : dict) (k : str) :
  VDict m = VDict m' → m !! k = m' !! k.
Proof.
  intros H.
  exact (f_equal (λ v, match v with VDict d => d !! k | _ => None end) H).
Qed.

Lemma error_dict_not_moderation (a b c e : value) :
  VDict (<[py "is_toxic" := a]> (<[py "confidence" := b]>
        (<[py "label" := c]> (<[py "text_length" := e]> ∅))))
  ≠ no_text_provided.
Proof.
  intros H. apply (VDict_lookup_eq _ _ (py "error")) in H. discriminate H.
Qed.

Lemma error_dict_not_sentiment (a b c : value) :
  VDict (<[py "sentiment" := a]> (<[py "confidence" := b]>
        (<[py "emoji" := c]> ∅)))
  ≠ no_text_provided.
Proof.
  intros H. apply (VDict_lookup_eq _ _ (py "error")) in H. discriminate H.
Qed.

Section EndpointEdges.
Variable run : pipeline → value → exn + list ScoreResult.

(** X1: whatever the request body holds, [/api/moderate] calls a pipeline
    at most once, only the toxicity one, and only on a non-empty string or
    list of at most 512 items; [/api/sentiment] likewise with the sentiment
    pipeline. *)
Theorem pipeline_input_bounded (data : dict) (log : calls) :
  (snd (moderate_content run data log) = log ∨
   ∃ x, snd (moderate_content run data log) = log ++ [(toxicity_model, x)] ∧
        ((∃ s, x = VStr s ∧ 0 < length s ≤ 512) ∨
         (∃ l, x = VList l ∧ 0 < length l ≤ 512))) ∧
  (snd (analyze_sentiment run data log) = log ∨
   ∃ x, snd (analyze_sentiment run data log) = log ++ [(sentiment_model, x)] ∧
        ((∃ s, x = VStr s ∧ 0 < length s ≤ 512) ∨
         (∃ l, x = VList l ∧ 0 < length l ≤ 512))).
Proof.
  assert (Hlen : ∀ {A} (l : list A), l ≠ [] → 0 < length (take 512 l) ≤ 512).
  { intros A l Hl. rewrite length_take. destruct l; [congruence|].
    cbn [length]. lia. }
  unfold moderate_content, analyze_sentiment.
  destruct (dict_get data (py "text") (VStr [])) as [|b|z|q|s|l|d] eqn:Ht;
    cbn [truthy].
  - split; left; reflexivity.
  - destruct b; split; left; reflexivity.
  - destruct (negb (z =? 0)%Z); split; left; reflexivity.
  - destruct (negb (Qeq_bool q 0)); split; left; reflexivity.
  - destruct s as [|c s]; [split; left; reflexivity|].
    cbn [length Nat.eqb negb slice_to]. unfold bind, lift, call. split; right;
      (eexists; split;
       [match goal with |- context [run ?p ?x] =>
          destruct (run p x) as [?|[|? ?]]; reflexivity end
       |left; eexists; split; [reflexivity|apply Hlen; discriminate]]).
  - destruct l as [|c l]; [split; left; reflexivity|].
    cbn [length Nat.eqb negb slice_to]. unfold bind, lift, call. split; right;
      (eexists; split;
       [match goal with |- context [run ?p ?x] =>
          destruct (run p x) as [?|[|? ?]]; reflexivity end
       |right; eexists; split; [reflexivity|apply Hlen; discriminate]]).
  - destruct (negb (bool_decide (d = ∅))); split; left; reflexivity.
Qed.

(** X2: a [text] that is a non-zero number or [True] makes both endpoints
    raise [TypeError] at the slice, before any pipeline call. *)
Theorem unsliceable_text_raises (data : dict) (v : value) (log : calls) :
  data !! py "text" = Some v → truthy v = true →
  (∃ z, v = VInt z) ∨ (∃ q, v = VFloat q) ∨ (∃ b, v = VBool b) →
  moderate_content run data log = (inl TypeError, log) ∧
  analyze_sentiment run data log = (inl TypeError, log).
Proof.
  intros Hd Ht Hv. unfold moderate_content, analyze_sentiment.
  rewrite !(dict_get_Some _ _ _ _ Hd), Ht.
  destruct Hv as [[z ->]|[[q ->]|[b ->]]]; split; reflexivity.
Qed.

(** X3: a pipeline that raises, or returns no result, is not masked: the
    endpoint raises the same exception, respectively [IndexError], after the
    one call on the 512-prefix. *)
Theorem pipeline_failure_propagates (data : dict) (s : str) (log : calls)
    (p : pipeline) (e : exn) :
  data !! py "text" = Some (VStr s) → s ≠ [] →
  run p (VStr (take 512 s)) = inl e ∨
  (run p (VStr (take 512 s)) = inr [] ∧ e = IndexError) →
  (match p with
   | toxicity_model => moderate_content
   | sentiment_model => analyze_sentiment
   end) run data log = (inl e, log ++ [(p, VStr (take 512 s))]).
Proof.
  intros Hd Hs Hrun. destruct p.
  - rewrite (moderate_content_str run data s log Hd Hs).
    destruct Hrun as [->|[-> ->]]; reflexivity.
  - rewrite (analyze_sentiment_str run data s log Hd Hs).
    destruct Hrun as [->|[-> ->]]; reflexivity.
Qed.

Lemma moderate_truthy_not_error (data : dict) (log : calls) :
  truthy (dict_get data (py "text") (VStr [])) = true →
  fst (moderate_content run data log) ≠ inr no_text_provided.
Proof.
  intros Ht. unfold moderate_content. rewrite Ht. cbn [negb].
  unfold bind, lift, call, ret.
  destruct (slice_to 512 (dict_get data (py "text") (VStr []))) as [?|x];
    [discriminate|].
  destruct (run toxicity_model x) as [?|[|r rs]]; cbn [fst first_item];
    [discriminate|discriminate|].
  destruct (len (dict_get data (py "text") (VStr []))); cbn [fst];
    [discriminate|].
  intros H.
  apply (f_equal (λ r : exn + value,
                    match r with inr v => v | inl _ => VNone end)) in H.
  exact (error_dict_not_moderation _ _ _ _ H).
Qed.

Lemma sentiment_truthy_not_error (data : dict) (log : calls) :
  truthy (dict_get data (py "text") (VStr [])) = true →
  fst (analyze_sentiment run data log) ≠ inr no_text_provided.
Proof.
  intros Ht. unfold analyze_sentiment. rewrite Ht. cbn [negb].
  unfold bind, lift, call, ret.
  destruct (slice_to 512 (dict_get data (py "text") (VStr []))) as [?|x];
    [discriminate|].
  destruct (run sentiment_model x) as [?|[|r rs]]; cbn [fst first_item];
    [discriminate|discriminate|].
  intros H.
  apply (f_equal (λ r : exn + value,
                    match r with inr v => v | inl _ => VNone end)) in H.
  exact (error_dict_not_sentiment _ _ _ H).
Qed.

(** X4: the error answer is given exactly when [text] is absent or falsy
    ([None], [False], [0], [0.0], an empty string, list or dict); every other
    request gets a different answer or an exception. *)
Theorem no_text_answer_iff_falsy (data : dict) (log : calls) :
  (fst (moderate_content run data log) = inr no_text_provided ↔
   data !! py "text" = None ∨
   ∃ v, data !! py "text" = Some v ∧ truthy v = false) ∧
  (fst (analyze_sentiment run data log) = inr no_text_provided ↔
   data !! py "text" = None ∨
   ∃ v, data !! py "text" = Some v ∧ truthy v = false).
Proof.
  assert (Hfalsy : truthy (dict_get data (py "text") (VStr [])) = false ↔
                   data !! py "text" = None ∨
                   ∃ v, data !! py "text" = Some v ∧ truthy v = false).
  { unfold dict_get. destruct (data !! py "text") as [v|]; cbn [default].
    - split; [intros H; right; exists v; split; [reflexivity|exact H]|].
      intros [H|(v' & [= <-] & H)]; [discriminate|exact H].
    - split; [left; reflexivity|reflexivity]. }
  rewrite <- !Hfalsy. clear Hfalsy.
  destruct (truthy (dict_get data (py "text") (VStr []))) eqn:Ht.
  - split; (split; [|discriminate]); intros H; exfalso.
    + exact (moderate_truthy_not_error data log Ht H).
    + exact (sentiment_truthy_not_error data log Ht H).
  - unfold moderate_content, analyze_sentiment. rewrite Ht.
    split; (split; [reflexivity|]); reflexivity.
Qed.

(** X5: for scores in the unit interval the [confidence] of both endpoints
    is the float of a thousandth [n/1000] with [0 <= n <= 1000], at most
    half a thousandth away from the raw score, and lies in the unit interval
    itself. *)
Theorem confidence_is_a_thousandth (data : dict) (s : str) (log : calls)
    (rt rs : ScoreResult) (rest rest' : list ScoreResult) :
  data !! py "text" = Some (VStr s) → s ≠ [] →
  run toxicity_model (VStr (take 512 s)) = inr (rt :: rest) →
  run sentiment_model (VStr (take 512 s)) = inr (rs :: rest') →
  (0 <= score rt)%Q ∧ (score rt <= 1)%Q →
  (0 <= score rs)%Q ∧ (score rs <= 1)%Q →
  ∃ (respt resps : dict) (nt ns : Z),
    fst (moderate_content run data log) = inr (VDict respt) ∧
    fst (analyze_sentiment run data log) = inr (VDict resps) ∧
    respt !! py "confidence" =
      Some (VFloat (nearest_binary64 (inject_Z nt / inject_Z 1000))) ∧
    resps !! py "confidence" =
      Some (VFloat (nearest_binary64 (inject_Z ns / inject_Z 1000))) ∧
    (0 ≤ nt ≤ 1000)%Z ∧ (0 ≤ ns ≤ 1000)%Z ∧
    (inject_Z nt - (1 # 2) <= 1000 * score rt)%Q ∧
    (1000 * score rt <= inject_Z nt + (1 # 2))%Q ∧
    (inject_Z ns - (1 # 2) <= 1000 * score rs)%Q ∧
    (1000 * score rs <= inject_Z ns + (1 # 2))%Q ∧
    (0 <= nearest_binary64 (inject_Z nt / inject_Z 1000))%Q ∧
    (nearest_binary64 (inject_Z nt / inject_Z 1000) <= 1)%Q ∧
    (0 <= nearest_binary64 (inject_Z ns / inject_Z 1000))%Q ∧
    (nearest_binary64 (inject_Z ns / inject_Z 1000) <= 1)%Q.
Proof.
  intros Hd Hs Ht Hse [Ht0 Ht1] [Hs0 Hs1].
  rewrite (moderate_content_str run data s log Hd Hs), Ht.
  rewrite (analyze_sentiment_str run data s log Hd Hs), Hse. cbn [fst].
  destruct (py_round_3_unit (score rt) Ht0 Ht1)
    as (nt & Hnt & Hrt & Hlt & Hut & _).
  destruct (py_round_3_unit (score rs) Hs0 Hs1)
    as (ns & Hns & Hrs & Hls & Hus & _).
  rewrite Hrt, Hrs.
  destruct (thousandth_in_unit_interval nt Hnt) as [? ?].
  destruct (thousandth_in_unit_interval ns Hns) as [? ?].
  eexists _, _, nt, ns.
  split; [reflexivity|]. split; [reflexivity|].
  split; [reflexivity|]. split; [reflexivity|].
  repeat split; try assumption; lia.
Qed.

(** X6: a response with [is_toxic] false never displays a [confidence]
    above 0.7: for a non-negative raw score at or below the threshold the
    rounded value is at most the float 0.7. *)
Theorem not_toxic_confidence_at_most_threshold (data : dict) (s : str)
    (log : calls) (r : ScoreResult) (rest : list ScoreResult) :
  data !! py "text" = Some (VStr s) → s ≠ [] →
  run toxicity_model (VStr (take 512 s)) = inr (r :: rest) →
  (0 <= score r)%Q →
  ∃ (resp : dict) (c : Q),
    fst (moderate_content run data log) = inr (VDict resp) ∧
    resp !! py "confidence" = Some (VFloat c) ∧
    (resp !! py "is_toxic" = Some (VBool false) → float_gt c lit_0_7 = false).
Proof.
  intros Hd Hs Hrun H0.
  rewrite (moderate_content_str run data s log Hd Hs), Hrun. cbn [fst].
  eexists _, _. split; [reflexivity|]. split; [reflexivity|].
  intros Hnt.
  assert (Hraw : float_gt (score r) lit_0_7 = false).
  { change (Some (VBool (float_gt (score r) lit_0_7)) = Some (VBool false))
      in Hnt.
    injection Hnt as Hnt. exact Hnt. }
  unfold float_gt in Hraw |- *. apply negb_false_iff in Hraw.
  apply negb_false_iff. apply Qle_bool_iff in Hraw. apply Qle_bool_iff.
  rewrite py_round_3.
  destruct (round_half_even_near (score r * inject_Z 1000)) as [Hlo Hhi].
  set (n := round_half_even (score r * inject_Z 1000)) in *.
  change (inject_Z 1000) with 1000%Q in Hlo, Hhi.
  apply thousandth_below_threshold. split.
  - apply (inject_Z_ge_half n 0). change (inject_Z 0) with 0%Q. lra.
  - apply (inject_Z_le_half n 700). change (inject_Z 700) with 700%Q.
    unfold lit_0_7 in Hraw. lra.
Qed.
End EndpointEdges.

(** ** [/api/summarize] *)

Lemma summary_not_error (a b : value) :
  VDict (<[py "summary" := a]> (<[py "post_count" := b]> ∅))
  ≠ no_posts_provided.
Proof.
  intros H. apply (VDict_lookup_eq _ _ (py "error")) in H. discriminate H.
Qed.

(** What the endpoint answers once [len(posts)] is known. *)
Lemma summarize_thread_sized (data : dict) (n : Z) :
  truthy (dict_get data (py "posts") (VList [])) = true →
  len (dict_get data (py "posts") (VList [])) = inr n →
  summarize_thread data =
    inr (VDict (<[py "summary" :=
                    VStr (py "Thread with " ++ format_int n ++
                          py " posts discussing various topics.")]>
               (<[py "post_count" := VInt n]> ∅))).
Proof.
  intros Ht Hn. unfold summarize_thread. rewrite Ht, Hn. reflexivity.
Qed.

(** A truthy value that has a length has a positive one. *)
Lemma truthy_len_positive (v : value) (n : Z) :
  truthy v = true → len v = inr n → (1 ≤ n)%Z.
Proof.
  destruct v as [|b|z|q|s|l|d]; cbn [truthy len]; try discriminate.
  - destruct s; [discriminate|]. intros _ [= <-]. cbn [length]. lia.
  - destruct l; [discriminate|]. intros _ [= <-]. cbn [length]. lia.
  - intros Hd [= <-]. apply negb_true_iff, bool_decide_eq_false in Hd.
    apply map_size_non_empty_iff in Hd. lia.
Qed.

(** X7: [/api/summarize] looks at the number of posts only: two requests
    whose [posts] are non-empty lists of the same length get the same answer,
    whose [post_count] is that length and whose [summary] prints it in
    decimal. *)
Theorem summarize_depends_on_count_only (d1 d2 : dict) (l1 l2 : list value) :
  d1 !! py "posts" = Some (VList l1) → d2 !! py "posts" = Some (VList l2) →
  l1 ≠ [] → length l1 = length l2 →
  ∃ resp : dict,
    summarize_thread d1 = inr (VDict resp) ∧
    summarize_thread d2 = inr (VDict resp) ∧
    resp !! py "post_count" = Some (VInt (Z.of_nat (length l1))) ∧
    resp !! py "summary" =
      Some (VStr (py "Thread with " ++ format_int (Z.of_nat (length l1)) ++
                  py " posts discussing various topics.")).
Proof.
  intros H1 H2 Hne Hlen.
  assert (Hne2 : l2 ≠ []) by (intros ->; destruct l1; [congruence|discriminate]).
  rewrite (summarize_thread_sized d1 (Z.of_nat (length l1))),
          (summarize_thread_sized d2 (Z.of_nat (length l1))).
  - eexists. split; [reflexivity|]. split; [reflexivity|].
    split; reflexivity.
  - rewrite (dict_get_Some _ _ _ _ H2). destruct l2; [congruence|reflexivity].
  - rewrite (dict_get_Some _ _ _ _ H2), Hlen. reflexivity.
  - rewrite (dict_get_Some _ _ _ _ H1). destruct l1; [congruence|reflexivity].
  - rewrite (dict_get_Some _ _ _ _ H1). reflexivity.
Qed.

(** X8: [/api/summarize] answers [{"error": "No posts provided"}] exactly
    when [posts] is absent or falsy. *)
Theorem no_posts_answer_iff_falsy (data : dict) :
  summarize_thread data = inr no_posts_provided ↔
  data !! py "posts" = None ∨
  ∃ v, data !! py "posts" = Some v ∧ truthy v = false.
Proof.
  assert (Hfalsy : truthy (dict_get data (py "posts") (VList [])) = false ↔
                   data !! py "posts" = None ∨
                   ∃ v, data !! py "posts" = Some v ∧ truthy v = false).
  { unfold dict_get. destruct (data !! py "posts") as [v|]; cbn [default].
    - split; [intros H; right; exists v; split; [reflexivity|exact H]|].
      intros [H|(v' & [= <-] & H)]; [discriminate|exact H].
    - split; [left; reflexivity|reflexivity]. }
  rewrite <- Hfalsy. clear Hfalsy.
  destruct (truthy (dict_get data (py "posts") (VList []))) eqn:Ht.
  - split; [|discriminate]. intros H. exfalso.
    destruct (len (dict_get data (py "posts") (VList []))) as [e|n] eqn:Hn.
    + unfold summarize_thread in H. rewrite Ht, Hn in H. discriminate H.
    + rewrite (summarize_thread_sized data n Ht Hn) in H.
      apply (f_equal (λ r : exn + value,
                        match r with inr v => v | inl _ => VNone end)) in H.
      exact (summary_not_error _ _ H).
  - unfold summarize_thread. rewrite Ht. split; reflexivity.
Qed.

(** X9: an answer of [/api/summarize] that is not the error never reports
    zero posts: its [post_count] is at least 1, and is the number printed in
    [summary], also when [posts] is a string or a dict, which are counted by
    characters and by keys. *)
Theorem summary_count_positive (data : dict) (resp : dict) :
  summarize_thread data = inr (VDict resp) →
  VDict resp ≠ no_posts_provided →
  ∃ n : Z,
    (1 ≤ n)%Z ∧
    len (dict_get data (py "posts") (VList [])) = inr n ∧
    resp !! py "post_count" = Some (VInt n) ∧
    resp !! py "summary" =
      Some (VStr (py "Thread with " ++ format_int n ++
                  py " posts discussing various topics.")).
Proof.
  intros Hrun Hne.
  destruct (truthy (dict_get data (py "posts") (VList []))) eqn:Ht.
  - destruct (len (dict_get data (py "posts") (VList []))) as [e|n] eqn:Hn.
    + unfold summarize_thread in Hrun. rewrite Ht, Hn in Hrun. discriminate Hrun.
    + rewrite (summarize_thread_sized data n Ht Hn) in Hrun.
      apply (f_equal (λ r : exn + value,
                        match r with inr v => v | inl _ => VNone end)) in Hrun.
      cbv beta iota in Hrun.
      exists n. split; [exact (truthy_len_positive _ _ Ht Hn)|].
      split; [reflexivity|]. split.
      * rewrite <- (VDict_lookup_eq _ _ (py "post_count") Hrun). reflexivity.
      * rewrite <- (VDict_lookup_eq _ _ (py "summary") Hrun). reflexivity.
  - exfalso. apply Hne. unfold summarize_thread in Hrun. rewrite Ht in Hrun.
    apply (f_equal (λ r : exn + value,
                      match r with inr v => v | inl _ => VNone end)) in Hrun.
    symmetry. exact Hrun.
Qed.

(** X10: [posts] given as a non-zero number or [True] makes
    [/api/summarize] raise [TypeError] at [len]. *)
Theorem unsized_posts_raise (data : dict) (v : value) :
  data !! py "posts" = Some v → truthy v = true →
  (∃ z, v = VInt z) ∨ (∃ q, v = VFloat q) ∨ (∃ b, v = VBool b) →
  summarize_thread data = inl TypeError.
Proof.
  intros Hd Ht Hv. unfold summarize_thread.
  rewrite !(dict_get_Some _ _ _ _ Hd), Ht.
  destruct Hv as [[z ->]|[[q ->]|[b ->]]]; reflexivity.
Qed.

(** ** The connection list and the handler *)

Lemma list_remove_app_fresh (x : conn) (l : list conn) :
  x ∉ l → list_remove x (l ++ [x]) = Some l.
Proof.
  induction l as [|y l IH]; intros Hx.
  - cbn. destruct (decide (x = x)); [reflexivity|congruence].
  - apply not_elem_of_cons in Hx as [Hne Hx]. cbn [app list_remove].
    destruct (decide (y = x)); [congruence|]. rewrite (IH Hx). reflexivity.
Qed.

Section ChannelInvariants.
Variable accept_error : conn → option exn.
Variable send_error : conn → option exn.
Variable json_loads : str → exn + value.
Variable now_isoformat : nat → str.

Local Abbreviation stamp message := (λ c : conn, (c, message)).

Lemma list_remove_middle (c : conn) (pre rest : list conn) :
  c ∉ pre → list_remove c (pre ++ c :: rest) = Some (pre ++ rest).
Proof.
  induction pre as [|y pre IH]; intros Hc.
  - cbn. destruct (decide (c = c)); [reflexivity|congruence].
  - apply not_elem_of_cons in Hc as [Hne Hc]. cbn [app list_remove].
    destruct (decide (y = c)); [congruence|]. rewrite (IH Hc). reflexivity.
Qed.

(** As long as the others do nothing, the walk serves the connections it
    meets. *)
Lemma broadcast_from_quiet_prefix (served rest : list conn)
    (sched : list (world → world)) (i : nat) (message : value) (w : world) :
  drop i (active_connections w) = served ++ rest →
  (∀ c, c ∈ served → send_error c = None) →
  broadcast_from send_error (replicate (length served) id ++ sched) i message w =
  broadcast_from send_error sched (i + length served) message
    (World (active_connections w)
           (delivered w ++ map (stamp message) served) (clock_reads w)).
Proof.
  revert i w. induction served as [|c served IH]; intros i w Hl Hok.
  - destruct w. cbn [length replicate app map active_connections delivered
                     clock_reads].
    rewrite app_nil_r, Nat.add_0_r. reflexivity.
  - cbn [app] in Hl. apply drop_cons_inv in Hl as [Hi Hl].
    cbn [length replicate app broadcast_from]. rewrite Hi. unfold id at 1.
    rewrite (send_json_completes send_error c message w)
      by (apply Hok, elem_of_cons; left; reflexivity).
    rewrite (IH (S i) (sent c message w)); [|exact Hl|].
    + unfold sent. cbn [active_connections delivered clock_reads map].
      rewrite <- app_assoc. replace (S i + length served)
        with (i + S (length served)) by lia. reflexivity.
    + intros c' Hc'. apply Hok, elem_of_cons. right. exact Hc'.
Qed.

(** X11: a connection that unregisters while the frame is being sent to
    it makes the fan-out skip the connection listed next.  With the
    connections before it served undisturbed and every send succeeding, the
    walk serves them, serves the leaving connection, and then goes on two
    places further in the original list: the connection in between stays
    listed and gets no frame. *)
Theorem unregistering_mid_pass_skips_next (message : value) (w : world)
    (pre post : list conn) (c skipped : conn) :
  active_connections w = pre ++ c :: skipped :: post →
  c ∉ pre →
  (∀ x, x ∈ pre ++ c :: post → send_error x = None) →
  broadcast_from send_error (replicate (length pre) id ++ [leaves c]) 0
    message w =
    (inr tt,
     World (pre ++ skipped :: post)
           (delivered w ++ map (stamp message) (pre ++ c :: post))
           (clock_reads w)).
Proof.
  intros Hl Hfresh Hok.
  rewrite (broadcast_from_quiet_prefix pre (c :: skipped :: post) [leaves c]
             0 message w).
  - destruct w as [conns wire reads].
    cbn [active_connections delivered clock_reads] in *. subst conns.
    cbn [broadcast_from Nat.add active_connections].
    rewrite list_lookup_middle by reflexivity.
    unfold leaves, disconnect. cbn [active_connections delivered clock_reads snd].
    rewrite (list_remove_middle c pre (skipped :: post) Hfresh). cbn [snd].
    rewrite (send_json_completes send_error c message)
      by (apply Hok, elem_of_app; right; apply elem_of_cons; left; reflexivity).
    unfold sent. cbn [broadcast_from active_connections delivered clock_reads].
    rewrite (cons_middle skipped pre post), app_assoc.
    rewrite drop_app_length' by (rewrite length_app; cbn [length]; lia).
    rewrite for_each_send_all.
    + cbn [active_connections delivered clock_reads].
      rewrite <- !app_assoc, map_app. cbn [map app]. reflexivity.
    + intros x Hx. apply Hok, elem_of_app. right. apply elem_of_cons. right.
      exact Hx.
  - rewrite drop_0. exact Hl.
  - intros x Hx. apply Hok, elem_of_app. left. exact Hx.
Qed.

(** X12: registering a handle that is not listed and unregistering it
    again gives back the world as it was. *)
Theorem connect_then_disconnect (ws : conn) (w : world) :
  accept_error ws = None → ws ∉ active_connections w →
  (connect accept_error ws ;;; disconnect ws) w = (inr tt, w).
Proof.
  intros Hacc Hfresh. unfold bind at 1.
  rewrite (connect_accepted accept_error ws w Hacc).
  unfold disconnect. cbn [active_connections delivered clock_reads].
  rewrite (list_remove_app_fresh ws _ Hfresh). destruct w. reflexivity.
Qed.

(** X13: a connection list without duplicates stays so: registering a
    handle that is not listed keeps it duplicate-free, and after a successful
    [disconnect] the list is duplicate-free, the handle is gone from it, and
    every other handle is listed exactly if it was before. *)
Theorem registry_stays_duplicate_free (ws : conn) (w : world) :
  NoDup (active_connections w) →
  (accept_error ws = None → ws ∉ active_connections w →
   NoDup (active_connections (snd (connect accept_error ws w)))) ∧
  (∀ w', disconnect ws w = (inr tt, w') →
     NoDup (active_connections w') ∧
     (ws ∉ active_connections w') ∧
     ∀ c, c ∈ active_connections w' ↔ c ∈ active_connections w ∧ c ≠ ws).
Proof.
  intros Hnd. split.
  - intros Hacc Hfresh. rewrite (connect_accepted accept_error ws w Hacc).
    cbn [snd active_connections]. apply NoDup_app. split; [exact Hnd|].
    split; [|apply NoDup_singleton].
    intros c Hc Hc'. apply list_elem_of_singleton in Hc'. subst c. contradiction.
  - intros w' Hdis. unfold disconnect in Hdis.
    destruct (decide (ws ∈ active_connections w)) as [Hin|Hnin].
    + destruct (list_remove_elem ws _ Hin) as (pre & post & Hl & Hpre & Hrm).
      rewrite Hrm in Hdis. injection Hdis as <-. cbn [active_connections].
      rewrite Hl in Hnd. apply NoDup_app in Hnd as (Hndpre & Hdisj & Hndpost).
      apply NoDup_cons in Hndpost as [Hpost Hndpost].
      split; [|split].
      * apply NoDup_app. split; [exact Hndpre|]. split; [|exact Hndpost].
        intros c Hc Hc'. apply (Hdisj c Hc). apply elem_of_cons. right. exact Hc'.
      * rewrite elem_of_app. intros [H|H]; contradiction.
      * intros c. rewrite Hl, !elem_of_app, elem_of_cons. split.
        -- intros [H|H].
           ++ split; [left; exact H|]. intros ->. contradiction.
           ++ split; [right; right; exact H|]. intros ->. contradiction.
        -- intros [[H|[H|H]] Hne]; [left; exact H|contradiction|right; exact H].
    + rewrite (list_remove_not_elem ws _ Hnin) in Hdis. discriminate Hdis.
Qed.

Lemma receive_loop_never_returns (inbox : list recv) (w : world) :
  fst (receive_loop send_error json_loads now_isoformat inbox w) ≠ inr Returned.
Proof.
  revert w. induction inbox as [|[data|e] inbox IH]; intros w; try discriminate.
  cbn [receive_loop]. unfold bind.
  destruct (on_text send_error json_loads now_isoformat data w) as [[e|[]] w'];
    [discriminate|apply IH].
Qed.

(** X14: how a handler whose handshake succeeded can end, and what it
    leaves in the connection list.  Suspended in [receive_text], or ended by
    an exception: its handle is still listed, appended to the list it found,
    and the exception is never [WebSocketDisconnect].  Returned: the first
    occurrence of its handle has been removed, so a handle that was not
    listed before leaves the list as the handler found it. *)
Theorem handler_exit_and_registry (websocket : conn) (inbox : list recv)
    (w : world) :
  accept_error websocket = None →
  match websocket_endpoint accept_error send_error json_loads now_isoformat
          websocket inbox w with
  | (inr Awaiting, w') =>
      active_connections w' = active_connections w ++ [websocket]
  | (inr Returned, w') =>
      list_remove websocket (active_connections w ++ [websocket]) =
        Some (active_connections w') ∧
      (websocket ∉ active_connections w →
       active_connections w' = active_connections w)
  | (inl e, w') =>
      e ≠ WebSocketDisconnect ∧
      active_connections w' = active_connections w ++ [websocket]
  end.
Proof.
  intros Hacc. unfold websocket_endpoint, bind at 1.
  rewrite (connect_accepted accept_error websocket w Hacc).
  set (w1 := World (active_connections w ++ [websocket]) (delivered w) (clock_reads w)).
  pose proof (receive_loop_connections send_error json_loads now_isoformat inbox w1) as Hc.
  pose proof (receive_loop_never_returns inbox w1) as Hr.
  destruct (receive_loop send_error json_loads now_isoformat inbox w1)
    as [[e|p] w2]; cbn [fst snd] in Hc, Hr; cbn [active_connections w1] in Hc.
  - assert (Hrm : ∃ l, list_remove websocket (active_connections w2) = Some l).
    { destruct (list_remove_elem websocket (active_connections w2))
        as (pre & post & _ & _ & Hrm); [|eauto].
      rewrite Hc. apply elem_of_app. right. apply elem_of_cons. left. reflexivity. }
    destruct Hrm as [l Hrm].
    destruct e; try (split; [discriminate|exact Hc]).
    unfold bind, disconnect, ret. rewrite Hrm. cbn [active_connections].
    rewrite <- Hc, Hrm. split; [reflexivity|].
    intros Hfresh. rewrite Hc, (list_remove_app_fresh _ _ Hfresh) in Hrm.
    injection Hrm as <-. reflexivity.
  - destruct p; [exact Hc|congruence].
Qed.

Local Abbreviation out_dict d w :=
  (<[py "type" := dict_get d (py "type") (VStr (py "message"))]>
  (<[py "content" := dict_get d (py "content") VNone]>
  (<[py "timestamp" := VStr (now_isoformat (clock_reads w))]>
  (<[py "user" := dict_get d (py "user") (VStr (py "Anonymous"))]> ∅)))).

Lemma on_text_dict (data : str) (d : dict) (w : world) :
  json_loads data = inr (VDict d) →
  on_text send_error json_loads now_isoformat data w =
    broadcast send_error (VDict (out_dict d w))
      (World (active_connections w) (delivered w) (S (clock_reads w))).
Proof.
  intros Hdata. unfold on_text, bind at 1, lift at 1. rewrite Hdata.
  unfold bind at 1. rewrite outbound_dict. reflexivity.
Qed.

Lemma on_text_all_sent (data : str) (d : dict) (w : world) :
  json_loads data = inr (VDict d) →
  (∀ c, c ∈ active_connections w → send_error c = None) →
  on_text send_error json_loads now_isoformat data w =
    (inr tt,
     World (active_connections w)
           (delivered w ++
            map (stamp (VDict (out_dict d w))) (active_connections w))
           (S (clock_reads w))).
Proof.
  intros Hdata Hok. rewrite (on_text_dict data d w Hdata).
  rewrite broadcast_alone. cbn [active_connections].
  rewrite for_each_send_all by exact Hok. reflexivity.
Qed.

(** A run of well-formed frames over a transport that takes every send. *)
Lemma receive_loop_frames (datas : list str) (tail : list recv) (w : world) :
  (∀ data, data ∈ datas → ∃ d, json_loads data = inr (VDict d)) →
  (∀ c, c ∈ active_connections w → send_error c = None) →
  ∃ w',
    receive_loop send_error json_loads now_isoformat
      (map Frame datas ++ tail) w =
    receive_loop send_error json_loads now_isoformat tail w' ∧
    active_connections w' = active_connections w ∧
    clock_reads w' = clock_reads w + length datas.
Proof.
  revert w. induction datas as [|data datas IH]; intros w Hjson Hok.
  - exists w. cbn. repeat split; lia.
  - destruct (Hjson data) as [d Hd]; [apply elem_of_cons; left; reflexivity|].
    cbn [map app receive_loop]. unfold bind at 1.
    rewrite (on_text_all_sent data d w Hd Hok).
    destruct (IH (World (active_connections w)
                        (delivered w ++
                         map (stamp (VDict (out_dict d w))) (active_connections w))
                        (S (clock_reads w))))
      as (w' & Hrun & Hac & Hclock).
    + intros data' Hin. apply Hjson, elem_of_cons. right. exact Hin.
    + exact Hok.
    + exists w'. split; [exact Hrun|]. cbn [active_connections delivered clock_reads] in *.
      split; [exact Hac|]. cbn [length]. lia.
Qed.

(** X15: a session that goes well, followed on its own.  A fresh handle
    connects, sends frames that all parse to dicts while every send
    succeeds, and then its peer goes away: the handler returns, its handle
    is off the connection list again, which is what it was before the
    session, and the clock was read once per frame; what is left in the
    inbox is not read. *)
Theorem clean_session (websocket : conn) (datas : list str)
    (unread : list recv) (w : world) :
  accept_error websocket = None →
  websocket ∉ active_connections w →
  (∀ data, data ∈ datas → ∃ d, json_loads data = inr (VDict d)) →
  (∀ c, c ∈ active_connections w ++ [websocket] → send_error c = None) →
  ∃ w',
    websocket_endpoint accept_error send_error json_loads now_isoformat
      websocket (map Frame datas ++ Raised WebSocketDisconnect :: unread) w =
      (inr Returned, w') ∧
    active_connections w' = active_connections w ∧
    clock_reads w' = clock_reads w + length datas.
Proof.
  intros Hacc Hfresh Hjson Hok.
  unfold websocket_endpoint, bind at 1.
  rewrite (connect_accepted accept_error websocket w Hacc).
  destruct (receive_loop_frames datas (Raised WebSocketDisconnect :: unread)
              (World (active_connections w ++ [websocket])
                     (delivered w) (clock_reads w)) Hjson Hok)
    as (w1 & Hrun & Hac & Hclock).
  rewrite Hrun. cbn [receive_loop]. unfold raise, bind, disconnect, ret.
  cbn [active_connections delivered clock_reads] in Hac, Hclock.
  rewrite Hac, (list_remove_app_fresh websocket _ Hfresh).
  eexists. split; [reflexivity|]. cbn [active_connections delivered clock_reads].
  split; [reflexivity|exact Hclock].
Qed.

(** X16: a dead peer met during a fan-out, the handler followed on its
    own.  When the send to a listed connection raises [WebSocketDisconnect]
    while a fresh handle's frame is broadcast, the handler of the sender
    takes the exception for its own disconnection: it unlists the sender and
    returns, leaving later frames unread; the dead peer stays listed. *)
Theorem stale_peer_unlists_sender (websocket bad : conn) (pre post : list conn)
    (data : str) (d : dict) (unread : list recv) (w : world) :
  accept_error websocket = None →
  websocket ∉ active_connections w →
  active_connections w = pre ++ bad :: post →
  (∀ c, c ∈ pre → send_error c = None) →
  send_error bad = Some WebSocketDisconnect →
  json_loads data = inr (VDict d) →
  ∃ w',
    websocket_endpoint accept_error send_error json_loads now_isoformat
      websocket (Frame data :: unread) w = (inr Returned, w') ∧
    active_connections w' = active_connections w ∧
    bad ∈ active_connections w' ∧
    (websocket ∉ active_connections w') ∧
    clock_reads w' = S (clock_reads w).
Proof.
  intros Hacc Hfresh Hl Hok Hbad Hdata.
  unfold websocket_endpoint, bind at 1.
  rewrite (connect_accepted accept_error websocket w Hacc).
  cbn [receive_loop]. unfold bind at 1.
  rewrite (on_text_dict data d _ Hdata).
  rewrite broadcast_alone.
  destruct w as [conns wire reads].
  cbn [active_connections delivered clock_reads] in *. subst conns.
  rewrite <- app_assoc, <- app_comm_cons.
  rewrite (for_each_send_raises send_error _ pre (post ++ [websocket]) bad
             WebSocketDisconnect _ Hok Hbad).
  cbn [active_connections delivered clock_reads].
  unfold bind, disconnect, ret. cbn [active_connections delivered clock_reads].
  rewrite app_comm_cons, app_assoc.
  rewrite (list_remove_app_fresh websocket _ Hfresh).
  eexists. split; [reflexivity|]. cbn [active_connections clock_reads].
  split; [reflexivity|]. split; [|split; [exact Hfresh|reflexivity]].
  apply elem_of_app. right. apply elem_of_cons. left. reflexivity.
Qed.

(** X17: a frame that is valid JSON but not an object (a list, a string, a
    number, [null]) ends the handler with [AttributeError] at the first
    [.get]: nothing is broadcast for it, the clock is not read, later frames
    are not read, and the state is the one the earlier frames left. *)
Theorem non_object_frame_ends_handler (websocket : conn) (w w' : world)
    (pre unread : list recv) (data : str) (v : value) :
  accept_error websocket = None →
  receive_loop send_error json_loads now_isoformat pre
    (World (active_connections w ++ [websocket]) (delivered w) (clock_reads w))
    = (inr Awaiting, w') →
  json_loads data = inr v → (∀ d, v ≠ VDict d) →
  websocket_endpoint accept_error send_error json_loads now_isoformat
    websocket (pre ++ Frame data :: unread) w = (inl AttributeError, w').
Proof.
  intros Hacc Hpre Hdata Hv.
  unfold websocket_endpoint, bind at 1.
  rewrite (connect_accepted accept_error websocket w Hacc).
  rewrite (receive_loop_app send_error json_loads now_isoformat pre _ _ _ Hpre).
  cbn [receive_loop]. unfold bind at 1, on_text, bind at 1, lift at 1.
  rewrite Hdata. unfold outbound, bind at 1, lift at 1.
  destruct v; try reflexivity. exfalso. exact (Hv _ eq_refl).
Qed.

(** X18: the broadcast dict has the four keys [type], [content],
    [timestamp] and [user] and no other: any further key of the inbound
    message is dropped, and an inbound [timestamp] is replaced by the
    server's. *)
Theorem outbound_has_four_keys (d : dict) (w : world) :
  ∃ out : dict,
    fst (outbound now_isoformat (VDict d) w) = inr (VDict out) ∧
    (∀ k, out !! k ≠ None ↔
          k = py "type" ∨ k = py "content" ∨
          k = py "timestamp" ∨ k = py "user") ∧
    out !! py "timestamp" = Some (VStr (now_isoformat (clock_reads w))).
Proof.
  rewrite outbound_dict. cbn [fst]. eexists. split; [reflexivity|].
  split; [|reflexivity].
  intros k. rewrite !lookup_insert, lookup_empty.
  repeat case_decide; subst; split; intros Hk;
    try discriminate; try congruence; auto 6;
    destruct Hk as [Hk|[Hk|[Hk|Hk]]]; congruence.
Qed.
End ChannelInvariants.

(** * Further concrete runs *)

Lemma unsliceable_text_raises_witness :
  ({[ py "text" := VInt 5 ]} : dict) !! py "text" = Some (VInt 5) ∧
  moderate_content sample_run {[ py "text" := VInt 5 ]} [] = (inl TypeError, []) ∧
  analyze_sentiment sample_run {[ py "text" := VInt 5 ]} [] = (inl TypeError, []).
Proof.
  split; [reflexivity|].
  apply (unsliceable_text_raises sample_run {[ py "text" := VInt 5 ]} (VInt 5) []).
  - reflexivity.
  - reflexivity.
  - left. exists 5%Z. reflexivity.
Defined.

Lemma pipeline_failure_propagates_witness :
  failing_run toxicity_model (VStr (take 512 hate_text)) = inl RuntimeError ∧
  moderate_content failing_run (request hate_text) [] =
    (inl RuntimeError, [] ++ [(toxicity_model, VStr (take 512 hate_text))]).
Proof.
  split; [reflexivity|].
  apply (pipeline_failure_propagates failing_run (request hate_text) hate_text []
           toxicity_model RuntimeError).
  - reflexivity.
  - discriminate.
  - left. reflexivity.
Defined.

Lemma no_text_answer_iff_falsy_witness :
  fst (moderate_content sample_run {[ py "text" := VInt 0 ]} []) =
    inr no_text_provided.
Proof.
  apply (proj2 (proj1 (no_text_answer_iff_falsy sample_run
                         {[ py "text" := VInt 0 ]} []))).
  right. exists (VInt 0). split; reflexivity.
Defined.

Lemma confidence_is_a_thousandth_witness :
  (0 <= 3152519739159348 # 4503599627370496)%Q ∧
  (3152519739159348 # 4503599627370496 <= 1)%Q ∧
  ∃ (respt resps : dict) (nt ns : Z),
    fst (moderate_content sample_run (request hate_text) []) = inr (VDict respt) ∧
    fst (analyze_sentiment sample_run (request hate_text) []) = inr (VDict resps) ∧
    (0 ≤ nt ≤ 1000)%Z ∧ (0 ≤ ns ≤ 1000)%Z.
Proof.
  split; [discriminate|]. split; [discriminate|].
  destruct (confidence_is_a_thousandth sample_run (request hate_text) hate_text []
              {| label := py "toxic";
                 score := 3152519739159348 # 4503599627370496 |}
              {| label := py "POSITIVE";
                 score := 4502698907445022 # 4503599627370496 |} [] [])
    as (respt & resps & nt & ns & H1 & H2 & _ & _ & Hnt & Hns & _).
  - reflexivity.
  - discriminate.
  - reflexivity.
  - reflexivity.
  - split; discriminate.
  - split; discriminate.
  - exists respt, resps, nt, ns. repeat split; try assumption; lia.
Defined.

Lemma not_toxic_confidence_at_most_threshold_witness :
  (0 <= 3150718299308399 # 4503599627370496)%Q ∧
  ∃ (resp : dict) (c : Q),
    fst (moderate_content calm_run (request hate_text) []) = inr (VDict resp) ∧
    resp !! py "confidence" = Some (VFloat c) ∧
    (resp !! py "is_toxic" = Some (VBool false) → float_gt c lit_0_7 = false).
Proof.
  split; [discriminate|].
  apply (not_toxic_confidence_at_most_threshold calm_run (request hate_text)
           hate_text []
           {| label := py "toxic";
              score := 3150718299308399 # 4503599627370496 |} []).
  - reflexivity.
  - discriminate.
  - reflexivity.
  - discriminate.
Defined.

Lemma summarize_depends_on_count_only_witness :
  ∃ resp : dict,
    summarize_thread {[ py "posts" := VList [VStr (py "a"); VStr (py "b")] ]} =
      inr (VDict resp) ∧
    summarize_thread {[ py "posts" := VList [VNone; VInt 3] ]} =
      inr (VDict resp) ∧
    resp !! py "post_count" = Some (VInt 2).
Proof.
  destruct (summarize_depends_on_count_only
              {[ py "posts" := VList [VStr (py "a"); VStr (py "b")] ]}
              {[ py "posts" := VList [VNone; VInt 3] ]}
              [VStr (py "a"); VStr (py "b")] [VNone; VInt 3])
    as (resp & H1 & H2 & Hn & _).
  - reflexivity.
  - reflexivity.
  - discriminate.
  - reflexivity.
  - exists resp. split; [exact H1|]. split; [exact H2|exact Hn].
Defined.

Lemma no_posts_answer_iff_falsy_witness :
  summarize_thread {[ py "posts" := VList [] ]} = inr no_posts_provided.
Proof.
  apply (proj2 (no_posts_answer_iff_falsy {[ py "posts" := VList [] ]})).
  right. exists (VList []). split; reflexivity.
Defined.

Lemma summary_count_positive_witness :
  ∃ n : Z,
    (1 ≤ n)%Z ∧
    len (dict_get {[ py "posts" := VStr (py "abc") ]} (py "posts") (VList [])) =
      inr n ∧
    (<[py "summary" :=
         VStr (py "Thread with 3 posts discussing various topics.")]>
     (<[py "post_count" := VInt 3]> ∅) : dict) !! py "post_count" =
      Some (VInt n).
Proof.
  destruct (summary_count_positive {[ py "posts" := VStr (py "abc") ]}
              (<[py "summary" :=
                   VStr (py "Thread with 3 posts discussing various topics.")]>
               (<[py "post_count" := VInt 3]> ∅)))
    as (n & Hn & Hlen & Hcount & _).
  - reflexivity.
  - apply summary_not_error.
  - exists n. split; [exact Hn|]. split; [exact Hlen|exact Hcount].
Defined.

Lemma unsized_posts_raise_witness :
  summarize_thread {[ py "posts" := VInt 7 ]} = inl TypeError.
Proof.
  apply (unsized_posts_raise {[ py "posts" := VInt 7 ]} (VInt 7)).
  - reflexivity.
  - reflexivity.
  - left. exists 7%Z. reflexivity.
Defined.

Lemma fresh_7 : 7 ∉ [1; 2; 3].
Proof.
  intros H. repeat (apply elem_of_cons in H as [H|H]; [discriminate|]).
  apply elem_of_nil in H. exact H.
Defined.

Lemma connect_then_disconnect_witness :
  (connect no_error 7 ;;; disconnect 7) (World [1; 2; 3] [] 0) =
    (inr tt, World [1; 2; 3] [] 0).
Proof.
  apply (connect_then_disconnect no_error 7 (World [1; 2; 3] [] 0)).
  - reflexivity.
  - exact fresh_7.
Defined.

Lemma registry_stays_duplicate_free_witness :
  NoDup (active_connections (snd (connect no_error 7 (World [1; 2; 3] [] 0)))) ∧
  NoDup [1; 3] ∧ (2 ∉ [1; 3]).
Proof.
  assert (Hnd : NoDup [1; 2; 3]).
  { apply (bool_decide_unpack _). reflexivity. }
  split.
  - apply (proj1 (registry_stays_duplicate_free no_error 7
                    (World [1; 2; 3] [] 0) Hnd)).
    + reflexivity.
    + exact fresh_7.
  - destruct (proj2 (registry_stays_duplicate_free no_error 2
                       (World [1; 2; 3] [] 0) Hnd)
                (World [1; 3] [] 0)) as (H1 & H2 & _).
    + reflexivity.
    + split; [exact H1|exact H2].
Defined.

Lemma handler_exit_and_registry_witness :
  match websocket_endpoint no_error no_error sample_json_loads sample_clock 7
          [Frame (py "{}"); Raised WebSocketDisconnect] (World [1; 2; 3] [] 0)
  with
  | (inr Awaiting, w') => active_connections w' = [1; 2; 3] ++ [7]
  | (inr Returned, w') =>
      list_remove 7 ([1; 2; 3] ++ [7]) = Some (active_connections w') ∧
      (7 ∉ [1; 2; 3] → active_connections w' = [1; 2; 3])
  | (inl e, w') =>
      e ≠ WebSocketDisconnect ∧ active_connections w' = [1; 2; 3] ++ [7]
  end.
Proof.
  apply (handler_exit_and_registry no_error no_error sample_json_loads
           sample_clock 7 [Frame (py "{}"); Raised WebSocketDisconnect]
           (World [1; 2; 3] [] 0)).
  reflexivity.
Defined.

Lemma clean_session_witness :
  ∃ w',
    websocket_endpoint no_error no_error sample_json_loads sample_clock 7
      (map Frame [py "{}"; py "{}"] ++ Raised WebSocketDisconnect :: [])
      (World [1; 2; 3] [] 0) = (inr Returned, w') ∧
    active_connections w' = [1; 2; 3] ∧
    clock_reads w' = 0 + 2.
Proof.
  apply (clean_session no_error no_error sample_json_loads sample_clock 7
           [py "{}"; py "{}"] [] (World [1; 2; 3] [] 0)).
  - reflexivity.
  - exact fresh_7.
  - intros data Hdata. exists ∅.
    repeat (apply elem_of_cons in Hdata as [->|Hdata]; [reflexivity|]).
    apply elem_of_nil in Hdata. contradiction.
  - intros c _. reflexivity.
Defined.

Lemma stale_peer_unlists_sender_witness :
  stale_send 2 = Some WebSocketDisconnect ∧
  ∃ w',
    websocket_endpoint no_error stale_send sample_json_loads sample_clock 7
      (Frame (py "{}") :: [Frame (py "{}")]) (World [1; 2; 3] [] 0) =
      (inr Returned, w') ∧
    active_connections w' = [1; 2; 3] ∧
    2 ∈ active_connections w' ∧
    (7 ∉ active_connections w') ∧
    clock_reads w' = 1.
Proof.
  split; [reflexivity|].
  apply (stale_peer_unlists_sender no_error stale_send sample_json_loads
           sample_clock 7 2 [1] [3] (py "{}") ∅ [Frame (py "{}")]
           (World [1; 2; 3] [] 0)).
  - reflexivity.
  - exact fresh_7.
  - reflexivity.
  - intros c Hc. apply elem_of_cons in Hc as [->|Hc]; [reflexivity|].
    apply elem_of_nil in Hc. contradiction.
  - reflexivity.
  - reflexivity.
Defined.

Lemma unregistering_mid_pass_skips_next_witness :
  broadcast_from no_error (replicate (length [1]) id ++ [leaves 2]) 0 hello
    (World [1; 2; 3; 4] [] 0) =
    (inr tt,
     World ([1] ++ 3 :: [4]) ([] ++ map (λ c, (c, hello)) ([1] ++ 2 :: [4])) 0).
Proof.
  apply (unregistering_mid_pass_skips_next no_error hello
           (World [1; 2; 3; 4] [] 0) [1] [4] 2 3).
  - reflexivity.
  - intros H. apply elem_of_cons in H as [H|H]; [discriminate|].
    apply elem_of_nil in H. exact H.
  - intros x _. reflexivity.
Defined.

Lemma non_object_frame_ends_handler_witness :
  frame_json_loads (py "[]") = inr (VList []) ∧
  websocket_endpoint no_error no_error frame_json_loads sample_clock 7
    ([] ++ Frame (py "[]") :: [Frame (py "{}")]) (World [1; 2; 3] [] 0) =
    (inl AttributeError, World ([1; 2; 3] ++ [7]) [] 0).
Proof.
  split; [reflexivity|].
  apply (non_object_frame_ends_handler no_error no_error frame_json_loads
           sample_clock 7 (World [1; 2; 3] [] 0)
           (World ([1; 2; 3] ++ [7]) [] 0) [] [Frame (py "{}")] (py "[]")
           (VList [])).
  - reflexivity.
  - reflexivity.
  - reflexivity.
  - discriminate.
Defined.
